(** * BlueMap Cloudflare worker: key resolution and content negotiation

    A shallow embedding of the two revisions of the worker's [fetch]
    handler found in the repository:

    - [Part000] is the handler of [src/unnamed/part_000]: store keys keep
      the [maps/] prefix, the root is rewritten to [index.html], and the
      compressed-only set is [.prbm] and [textures.json];
    - [Part001] is the handler of [src/unnamed/part_001]: only [maps/*] is
      served, the prefix is stripped from the key, [settings.json] joins the
      compressed-only set, and two debug endpoints come first.

    The platform (R2 bucket, outbound [fetch], [decodeURIComponent], the
    [Request] and [Response] constructors) is the environment of the
    handler, with the exceptions it raises: R2 refuses a key of more than
    1024 bytes, [new Request] a string that is no URL, [new Response] a
    status outside 200..599.  A run of the handler yields its outcome, a
    response or an escaped exception, together with the trace of the store
    and network calls it made. *)

From Stdlib Require Import Ascii.
From stdpp Require Import gmap strings list fin_maps pretty.

(** ** Strings as the handler uses them

    Strings are byte strings (UTF-8).  Every test the handler makes is
    against an ASCII literal, so the byte view and JavaScript's UTF-16 view
    agree on them. *)

Fixpoint startsWith (s p : string) {struct p} : bool :=
  match p with
  | "" => true
  | String a p' =>
      match s with
      | "" => false
      | String b s' => if Ascii.eqb a b then startsWith s' p' else false
      end
  end.

(** [s.endsWith(suf)]: the reversed suffix starts the reversed string. *)
Definition endsWith (s suf : string) : bool :=
  startsWith (String.rev s) (String.rev suf).

(** [s.substring(n)]: drop the first [n] characters. *)
Fixpoint substring_from (n : nat) (s : string) : string :=
  match n with
  | 0 => s
  | S n' => match s with "" => "" | String _ s' => substring_from n' s' end
  end.

(** [if (path.startsWith("/")) path = path.substring(1)] *)
Definition strip_leading_slash (path : string) : string :=
  if startsWith path "/" then substring_from 1 path else path.

Definition lower_ascii (c : ascii) : ascii :=
  let n := nat_of_ascii c in
  if (65 <=? n) && (n <=? 90) then ascii_of_nat (n + 32) else c.

(** [s.toLowerCase()] on the ASCII letters.  The only non-ASCII characters
    whose lower case contains an ASCII letter are U+212A (to [k]) and U+0130
    (to [i] followed by a combining dot); no key of the MIME table below can
    be produced through them. *)
Fixpoint toLowerCase (s : string) : string :=
  match s with
  | "" => ""
  | String c s' => String (lower_ascii c) (toLowerCase s')
  end.

(** [s.split(".")], with the current piece accumulated in reverse. *)
Fixpoint split_go (sep : ascii) (cur : string) (s : string) : list string :=
  match s with
  | "" => [String.rev cur]
  | String c s' =>
      if Ascii.eqb c sep then String.rev cur :: split_go sep "" s'
      else split_go sep (String c cur) s'
  end.

Definition split (sep : ascii) (s : string) : list string := split_go sep "" s.

(** [arr.pop()] of a freshly built array: its last element. *)
Definition pop (l : list string) : option string := last l.

(** [s.replace(/\/+$/, "")]: remove the whole run of trailing slashes. *)
Fixpoint drop_slashes (s : string) : string :=
  match s with
  | String "/"%char s' => drop_slashes s'
  | _ => s
  end.

Definition strip_trailing_slashes (s : string) : string :=
  String.rev (drop_slashes (String.rev s)).

(** The head [[^/]+\/] of the two path patterns: one or more characters other
    than a slash, then a slash.  The run cannot contain a slash and must be
    followed by one, so it is the text up to the first slash; the result is
    what follows that slash. *)
Fixpoint after_first_slash (s : string) : option string :=
  match s with
  | "" => None
  | String "/"%char s' => Some s'
  | String _ s' => after_first_slash s'
  end.

Definition after_segment (s : string) : option string :=
  match s with
  | "" => None
  | String "/"%char _ => None
  | String _ s' => after_first_slash s'
  end.

(** [/^[^/]+\/<dir>\//.test(s)] *)
Definition segment_then (dir : string) (s : string) : bool :=
  match after_segment s with
  | Some rest => startsWith rest (dir +:+ "/")
  | None => false
  end.

(** [/^maps\/[^/]+\/<dir>\//.test(s)] *)
Definition maps_segment_then (dir : string) (s : string) : bool :=
  startsWith s "maps/" && segment_then dir (substring_from 5 s).

(** ** HTTP data *)

(** A [Headers] object: names are case-insensitive and kept in lower case. *)
Abbreviation Headers := (gmap string string).

Definition headers_get (name : string) (h : Headers) : option string :=
  h !! toLowerCase name.

Definition headers_set (name value : string) (h : Headers) : Headers :=
  <[toLowerCase name := value]> h.

(** [new Headers(init)] for an object literal [init]. *)
Definition headers_of (init : list (string * string)) : Headers :=
  foldl (fun h kv => headers_set kv.1 kv.2 h) ∅ init.

Record Request := {
  method : string;
  pathname : string;                 (* [new URL(request.url).pathname] *)
  searchParams : gmap string string; (* first value of each query parameter *)
  req_headers : Headers
}.

(** What the debug endpoints serialise with [JSON.stringify(_, null, 2)]. *)
Inductive DebugReport :=
| ReportNoOrigin
| ReportLive (testUrl : string) (res_status : nat) (res_statusText : string)
    (elapsedMs : Z) (responseHeaders : Headers) (bodyPreview : string)
| ReportLiveError (testUrl : string) (error : string)
| ReportListing (truncated : bool) (count : nat) (objects : list (string * Z)).

Inductive Body :=
| BodyNull
| BodyText (s : string)
| BodyStream (bytes : string)
| BodyJson (r : DebugReport).

(** The [encodeBody] option of the Workers [Response]. *)
Inductive EncodeBody := Automatic | Manual.

Record Response := {
  status : nat;
  statusText : string;
  headers : Headers;
  body : Body;
  encodeBody : EncodeBody
}.

(** [new Response(body, { status, headers })] for a [null] or stream body. *)
Definition mkResponse (b : Body) (st : nat) (h : Headers) : Response :=
  {| status := st; statusText := ""; headers := h; body := b;
     encodeBody := Automatic |}.

(** [new Response(text, { status, headers })]: a string body brings its own
    [Content-Type] when the init names none. *)
Definition textResponse (text : string) (st : nat) (h : Headers) : Response :=
  mkResponse (BodyText text) st
    (match headers_get "Content-Type" h with
     | Some _ => h
     | None => headers_set "Content-Type" "text/plain;charset=UTF-8" h
     end).

(** [new Response(_, { status })] throws a [RangeError] unless the status
    lies between 200 and 599. *)
Definition response_status_ok (st : nat) : bool := (200 <=? st) && (st <=? 599).

(** [ifNoneMatch && ifNoneMatch === etag] on [request.headers.get("If-None-Match")] *)
Definition if_none_match_hits (h : Headers) (etag : string) : bool :=
  match headers_get "If-None-Match" h with
  | Some v => negb (String.eqb v "") && String.eqb v etag
  | None => false
  end.

(** The reply to a CORS preflight, the same in both revisions. *)
Definition preflight : Response :=
  mkResponse BodyNull 200
    (headers_of [("Access-Control-Allow-Origin", "*");
                 ("Access-Control-Allow-Methods", "GET, HEAD, OPTIONS");
                 ("Access-Control-Allow-Headers", "*");
                 ("Access-Control-Max-Age", "86400")]).

(** ** The platform *)

Record R2ObjectBody := { httpEtag : string; object_body : string }.

Record R2ListOptions := {
  prefix : option string;
  limit_text : string   (* the handler passes [parseInt] of this text *)
}.

Record R2Objects := { listed_objects : list (string * Z); truncated : bool }.

(** What an awaited platform call comes back with: its value, or an
    exception thrown at the call. *)
Inductive Awaited (A : Type) :=
| Resolved (a : A)
| Thrown (error : string).
Arguments Resolved {A} a.
Arguments Thrown {A} error.

(** R2 takes no key of more than 1024 bytes. *)
Definition valid_key (key : string) : bool := String.length key <=? 1024.

(** The R2 bucket binding.  Of its [entries] only those under a valid key
    are objects of the bucket ([objects] below), since R2 stores nothing
    under another key; [list] is answered by the platform, which may refuse
    the options with an exception. *)
Record R2Bucket := {
  entries : gmap string R2ObjectBody;
  list_reply : R2ListOptions -> Awaited R2Objects
}.

Definition objects (b : R2Bucket) : gmap string R2ObjectBody :=
  filter (fun kv => valid_key kv.1 = true) (entries b).

Record Env := {
  BUCKET : R2Bucket;
  LIVE_SERVER_ORIGIN : option string
}.

(** A JavaScript truthiness test on an optional string: set and not empty. *)
Definition configured (v : option string) : option string :=
  match v with
  | Some "" => None
  | other => other
  end.

(** What the global [fetch] is called with: a URL (the string handed over,
    or the URL of the [Request] handed over), a method and headers. *)
Record OutRequest := {
  out_url : string;
  out_method : string;
  out_headers : Headers
}.

Record OriginResponse := {
  origin_status : nat;
  origin_statusText : string;
  origin_headers : Headers;
  origin_body : string
}.

Inductive FetchResult :=
| Fetched (r : OriginResponse)
| Rejected (message : string).

(** What lies outside the worker: the builtin [decodeURIComponent] ([None]
    when it throws [URIError]), the URL that [new Request(url)] gives the
    request it builds ([None] when [url] does not parse and the constructor
    throws [TypeError], the serialised URL otherwise), the network reached by
    the global [fetch], and the wall clock read around the debug probe. *)
Record World := {
  decodeURIComponent : string -> option string;
  request_url : string -> option string;
  network : OutRequest -> FetchResult;
  elapsed : Z
}.

(** ** Effects: a run reads the world and logs its calls *)

Inductive Event :=
| BucketGet (key : string)
| BucketList (opts : R2ListOptions)
| NetFetch (rq : OutRequest).

Definition Eff (A : Type) : Type := World -> list Event * A.

Global Instance eff_ret : MRet Eff := fun A (a : A) _ => ([], a).

Global Instance eff_bind : MBind Eff := fun A B (k : A -> Eff B) (m : Eff A) w =>
  let '(t1, a) := m w in let '(t2, b) := k a w in (t1 ++ t2, b).

(** The answer of [bucket.get(key)]: the object, [null] when the key is
    absent, an exception when the key is longer than R2 allows. *)
Definition get_reply (b : R2Bucket) (key : string) : Awaited (option R2ObjectBody) :=
  if valid_key key then Resolved (objects b !! key)
  else Thrown "get: key exceeds 1024 bytes".

(** [await bucket.get(key)] *)
Definition bucket_get (b : R2Bucket) (key : string)
    : Eff (Awaited (option R2ObjectBody)) :=
  fun _ => ([BucketGet key], get_reply b key).

(** [await bucket.list(opts)] *)
Definition bucket_list (b : R2Bucket) (opts : R2ListOptions)
    : Eff (Awaited R2Objects) :=
  fun _ => ([BucketList opts], list_reply b opts).

(** [await fetch(rq)] *)
Definition net_fetch (rq : OutRequest) : Eff FetchResult :=
  fun w => ([NetFetch rq], network w rq).

Definition read_elapsed : Eff Z := fun w => ([], elapsed w).

Definition decode_uri (s : string) : Eff (option string) :=
  fun w => ([], decodeURIComponent w s).

(** The URL of [new Request(url, _)]. *)
Definition new_request (url : string) : Eff (option string) :=
  fun w => ([], request_url w url).

(** The handler either resolves to a response or lets an exception escape. *)
Inductive Outcome :=
| Respond (r : Response)
| Throw (error : string).

Definition trace_of {A} (run : list Event * A) : list Event := run.1.
Definition result_of {A} (run : list Event * A) : A := run.2.

Definition is_store_access (e : Event) : bool :=
  match e with BucketGet _ | BucketList _ => true | NetFetch _ => false end.

Definition is_network_call (e : Event) : bool :=
  match e with NetFetch _ => true | _ => false end.

(** ** The handler of [src/unnamed/part_000] *)

Module Part000.

Definition MIME_TYPES : gmap string string :=
  list_to_map [
    ("html", "text/html; charset=utf-8");
    ("htm", "text/html; charset=utf-8");
    ("css", "text/css; charset=utf-8");
    ("js", "text/javascript; charset=utf-8");
    ("json", "application/json; charset=utf-8");
    ("txt", "text/plain; charset=utf-8");
    ("xml", "text/xml; charset=utf-8");
    ("csv", "text/csv; charset=utf-8");
    ("svg", "image/svg+xml");
    ("png", "image/png");
    ("jpg", "image/jpeg");
    ("jpeg", "image/jpeg");
    ("gif", "image/gif");
    ("webp", "image/webp");
    ("ico", "image/x-icon");
    ("tif", "image/tiff");
    ("tiff", "image/tiff");
    ("ttf", "font/ttf");
    ("woff", "font/woff");
    ("woff2", "font/woff2");
    ("mp3", "audio/mpeg");
    ("wav", "audio/wav");
    ("oga", "audio/ogg");
    ("weba", "audio/webm");
    ("mp4", "video/mp4");
    ("mpeg", "video/mpeg");
    ("webm", "video/webm");
    ("prbm", "application/octet-stream")
  ].

(** [MIME_TYPES] is an object literal, so [MIME_TYPES[ext]] also reaches the
    members it inherits from [Object.prototype].  Two of them have a name
    that survives [toLowerCase]; the value found is not nullish and ends up
    in the header as its string conversion. *)
Definition inherited_member (name : string) : option string :=
  if String.eqb name "constructor" then Some "function Object() { [native code] }"
  else if String.eqb name "__proto__" then Some "[object Object]"
  else None.

Definition getMimeType (path : string) : string :=
  let ext := from_option toLowerCase "" (pop (split "." path)) in
  match MIME_TYPES !! ext with
  | Some type => type
  | None => default "application/octet-stream" (inherited_member ext)
  end.

Definition GZ_ONLY_EXTENSIONS : list string := [".prbm"].
Definition GZ_ONLY_FILENAMES : list string := ["textures.json"].

Definition isTilePath (path : string) : bool := maps_segment_then "tiles" path.

Definition isLivePath (path : string) : bool := maps_segment_then "live" path.

Definition shouldTryGz (path : string) : bool :=
  if endsWith path ".gz" then false
  else if existsb (endsWith path) GZ_ONLY_EXTENSIONS then true
  else if existsb (endsWith path) GZ_ONLY_FILENAMES then true
  else false.

Definition r2Response (object : R2ObjectBody) (contentType : string)
    (gzipped : bool) (cacheSeconds : N) (request : option Request) : Response :=
  let headers := headers_set "Content-Type" contentType ∅ in
  let headers := headers_set "ETag" (httpEtag object) headers in
  let headers :=
    headers_set "Cache-Control" ("public, max-age=" +:+ pretty cacheSeconds) headers in
  let headers := headers_set "Access-Control-Allow-Origin" "*" headers in
  let headers :=
    if gzipped then headers_set "Content-Encoding" "gzip" headers else headers in
  match request with
  | Some request =>
      if if_none_match_hits (req_headers request) (httpEtag object)
      then mkResponse BodyNull 304 headers
      else mkResponse (BodyStream (object_body object)) 200 headers
  | None => mkResponse (BodyStream (object_body object)) 200 headers
  end.

Definition cors_only : Headers := headers_of [("Access-Control-Allow-Origin", "*")].

(** The live branch of [fetch]: forward to the integrated webserver.  The
    request is built before the [try] block, so a target that is no URL
    throws out of the handler and nothing is fetched.  Inside the [try], a
    rejected [fetch] and a status that [new Response] refuses both end in
    the [catch]. *)
Definition live_proxy (request : Request) (origin path : string) : Eff Outcome :=
  let target := strip_trailing_slashes origin +:+ "/" +:+ path in
  url ← new_request target;
  match url with
  | None => mret (Throw "TypeError")
  | Some url =>
      let proxyReq :=
        {| out_url := url; out_method := method request;
           out_headers := req_headers request |} in
      let unavailable : Eff Outcome :=
        mret (Respond (textResponse "Live server unavailable" 502 ∅)) in
      proxyRes ← net_fetch proxyReq;
      match proxyRes with
      | Fetched res =>
          if response_status_ok (origin_status res) then
            mret (Respond
              {| status := origin_status res;
                 statusText := origin_statusText res;
                 headers :=
                   headers_set "Access-Control-Allow-Origin" "*" (origin_headers res);
                 body := BodyStream (origin_body res);
                 encodeBody := Automatic |})
          else unavailable
      | Rejected _ => unavailable
      end
  end.

(** The rest of [fetch], from "Serve from R2" on.  No [get] stands in a
    [try] block: an exception it throws leaves the handler. *)
Definition from_bucket (request : Request) (env : Env) (path : string) : Eff Outcome :=
  let contentType := getMimeType path in
  let isMapTile := isTilePath path in
  let absent : Eff Outcome :=
    if isMapTile then mret (Respond (mkResponse BodyNull 204 cors_only))
    else mret (Respond (textResponse "Not Found" 404 cors_only)) in
  if shouldTryGz path then
    let gzKey := path +:+ ".gz" in
    object ← bucket_get (BUCKET env) gzKey;
    match object with
    | Thrown error => mret (Throw error)
    | Resolved (Some object) =>
        mret (Respond (r2Response object contentType true 86400%N (Some request)))
    | Resolved None =>
        fallback ← bucket_get (BUCKET env) path;
        match fallback with
        | Thrown error => mret (Throw error)
        | Resolved (Some fallback) =>
            mret (Respond
              (r2Response fallback contentType false 86400%N (Some request)))
        | Resolved None => absent
        end
    end
  else
    object ← bucket_get (BUCKET env) path;
    match object with
    | Thrown error => mret (Throw error)
    | Resolved (Some object) =>
        mret (Respond (r2Response object contentType false 86400%N (Some request)))
    | Resolved None =>
        if negb (endsWith path ".gz") then
          gzObject ← bucket_get (BUCKET env) (path +:+ ".gz");
          match gzObject with
          | Thrown error => mret (Throw error)
          | Resolved (Some gzObject) =>
              mret (Respond
                (r2Response gzObject contentType true 86400%N (Some request)))
          | Resolved None => absent
          end
        else absent
    end.

Definition fetch (request : Request) (env : Env) : Eff Outcome :=
  decoded ← decode_uri (pathname request);
  match decoded with
  | None => mret (Throw "URIError")
  | Some path =>
    let path := strip_leading_slash path in
    let path :=
      if String.eqb path "" || String.eqb path "/" then "index.html" else path in
    if String.eqb (method request) "OPTIONS" then mret (Respond preflight)
    else if negb (String.eqb (method request) "GET")
            && negb (String.eqb (method request) "HEAD")
    then mret (Respond (textResponse "Method Not Allowed" 405 ∅))
    else
    match (if isLivePath path then configured (LIVE_SERVER_ORIGIN env) else None) with
    | Some origin => live_proxy request origin path
    | None => from_bucket request env path
    end
  end.

End Part000.

(** ** The handler of [src/unnamed/part_001] *)

Module Part001.

Definition getMimeType (path : string) : string :=
  if endsWith path ".prbm" || endsWith path ".prbm.gz" then "application/octet-stream"
  else if endsWith path ".png" then "image/png"
  else if endsWith path ".json" || endsWith path ".json.gz" then "application/json"
  else "application/octet-stream".

Definition r2Response (object : R2ObjectBody) (contentType : string)
    (request : Request) : Response :=
  let headers := headers_set "Content-Type" contentType ∅ in
  let headers := headers_set "ETag" (httpEtag object) headers in
  let headers := headers_set "Cache-Control" "public, max-age=86400" headers in
  let headers := headers_set "Access-Control-Allow-Origin" "*" headers in
  if if_none_match_hits (req_headers request) (httpEtag object)
  then mkResponse BodyNull 304 headers
  else mkResponse (BodyStream (object_body object)) 200 headers.

Definition compressedR2Response (object : R2ObjectBody) (contentType : string)
    (request : Request) : Response :=
  let headers := headers_set "Content-Type" contentType ∅ in
  let headers := headers_set "Content-Encoding" "gzip" headers in
  let headers := headers_set "ETag" (httpEtag object) headers in
  let headers := headers_set "Cache-Control" "public, max-age=86400" headers in
  let headers := headers_set "Access-Control-Allow-Origin" "*" headers in
  if if_none_match_hits (req_headers request) (httpEtag object)
  then mkResponse BodyNull 304 headers
  else {| status := 200; statusText := ""; headers := headers;
          body := BodyStream (object_body object); encodeBody := Manual |}.

Definition emptyResponse (status : nat) : Response :=
  mkResponse BodyNull status (headers_of [("Access-Control-Allow-Origin", "*")]).

(** [new Response(JSON.stringify(report, null, 2), { status, headers })] with
    the JSON content type the debug endpoints give. *)
Definition jsonResponse (report : DebugReport) (status : nat) : Response :=
  mkResponse (BodyJson report) status
    (headers_of [("Content-Type", "application/json")]).

(** The [/debug/live] endpoint.  Reading the probe's body ([res.text()]) is
    taken to succeed once the probe itself did. *)
Definition debug_live (env : Env) : Eff Outcome :=
  match configured (LIVE_SERVER_ORIGIN env) with
  | None => mret (Respond (jsonResponse ReportNoOrigin 500))
  | Some live =>
      let origin := strip_trailing_slashes live in
      let testUrl := origin +:+ "/maps/world/live/players.json" in
      res ← net_fetch
        {| out_url := testUrl; out_method := "GET";
           out_headers :=
             headers_of [("Accept", "*/*");
                         ("User-Agent", "bluemap-cloudflare-worker")] |};
      match res with
      | Fetched res =>
          elapsed ← read_elapsed;
          mret (Respond (jsonResponse
            (ReportLive testUrl (origin_status res) (origin_statusText res)
               elapsed (origin_headers res)
               (String.substring 0 2000 (origin_body res)))
            200))
      | Rejected message =>
          mret (Respond (jsonResponse (ReportLiveError testUrl message) 502))
      end
  end.

(** The [/debug] endpoint: list stored keys under a prefix.  The listing
    stands in no [try] block. *)
Definition debug_list (request : Request) (env : Env) : Eff Outcome :=
  let prefix := searchParams request !! "prefix" in
  let max := default "50" (searchParams request !! "max") in
  listed ← bucket_list (BUCKET env) {| prefix := prefix; limit_text := max |};
  match listed with
  | Thrown error => mret (Throw error)
  | Resolved listed =>
      let keys := listed_objects listed in
      mret (Respond (jsonResponse
        (ReportListing (truncated listed) (length keys) keys) 200))
  end.

(** The live branch of [fetch]; the whole of it sits in the [try] block.
    [fetch] is handed the URL as a string, so whatever fails on the way to
    the origin, a URL that does not parse included, is a [Rejected] fetch;
    a status that [new Response] refuses ends in the [catch] as well. *)
Definition live_proxy (request : Request) (live path : string) : Eff Outcome :=
  let origin := strip_trailing_slashes live in
  let proxyUrl := origin +:+ "/" +:+ path in
  proxyResponse ← net_fetch
    {| out_url := proxyUrl; out_method := method request;
       out_headers :=
         headers_of
           [("Accept", default "*/*" (headers_get "Accept" (req_headers request)));
            ("User-Agent", "bluemap-cloudflare-worker")] |};
  match proxyResponse with
  | Fetched proxyResponse =>
      let responseHeaders := origin_headers proxyResponse in
      let responseHeaders :=
        headers_set "Access-Control-Allow-Origin" "*" responseHeaders in
      let responseHeaders :=
        headers_set "Cache-Control" "public, max-age=5" responseHeaders in
      if response_status_ok (origin_status proxyResponse) then
        mret (Respond
          (mkResponse (BodyStream (origin_body proxyResponse))
             (origin_status proxyResponse) responseHeaders))
      else mret (Respond (emptyResponse 502))
  | Rejected _ => mret (Respond (emptyResponse 502))
  end.

(** The rest of [fetch], once the [maps/] prefix is stripped from the key.
    No [get] stands in a [try] block: an exception it throws leaves the
    handler. *)
Definition from_bucket (request : Request) (env : Env) (r2Key : string) : Eff Outcome :=
  let contentType := getMimeType r2Key in
  let isTile := segment_then "tiles" r2Key in
  let exact : Eff Outcome :=
    object ← bucket_get (BUCKET env) r2Key;
    match object with
    | Thrown error => mret (Throw error)
    | Resolved (Some object) => mret (Respond (r2Response object contentType request))
    | Resolved None =>
        let absent : Eff Outcome :=
          if isTile then mret (Respond (emptyResponse 204))
          else mret (Respond (emptyResponse 404)) in
        if negb (endsWith r2Key ".gz") then
          gzObject ← bucket_get (BUCKET env) (r2Key +:+ ".gz");
          match gzObject with
          | Thrown error => mret (Throw error)
          | Resolved (Some gzObject) =>
              mret (Respond (compressedR2Response gzObject contentType request))
          | Resolved None => absent
          end
        else absent
    end in
  if endsWith r2Key ".prbm" || endsWith r2Key "textures.json"
     || endsWith r2Key "settings.json"
  then
    gzObject ← bucket_get (BUCKET env) (r2Key +:+ ".gz");
    match gzObject with
    | Thrown error => mret (Throw error)
    | Resolved (Some gzObject) =>
        mret (Respond (compressedR2Response gzObject contentType request))
    | Resolved None => exact
    end
  else exact.

Definition fetch (request : Request) (env : Env) : Eff Outcome :=
  if String.eqb (pathname request) "/debug/live" then debug_live env
  else if String.eqb (pathname request) "/debug" then debug_list request env
  else if String.eqb (method request) "OPTIONS" then mret (Respond preflight)
  else if negb (String.eqb (method request) "GET")
          && negb (String.eqb (method request) "HEAD")
  then mret (Respond (textResponse "Method Not Allowed" 405 ∅))
  else
  decoded ← decode_uri (pathname request);
  match decoded with
  | None => mret (Throw "URIError")
  | Some path =>
    let path := strip_leading_slash path in
    if negb (startsWith path "maps/") then mret (Respond (emptyResponse 404))
    else
    match (match configured (LIVE_SERVER_ORIGIN env) with
           | Some live => if maps_segment_then "live" path then Some live else None
           | None => None
           end) with
    | Some live => live_proxy request live path
    | None => from_bucket request env (substring_from (String.length "maps/") path)
    end
  end.

End Part001.

(** ** The two revisions side by side

    Most properties hold of both handlers; they are stated once, over the
    revision. *)

Inductive Revision := Rev000 | Rev001.

Definition handler (v : Revision) : Request -> Env -> Eff Outcome :=
  match v with Rev000 => Part000.fetch | Rev001 => Part001.fetch end.

Definition serve (v : Revision) : Request -> Env -> string -> Eff Outcome :=
  match v with Rev000 => Part000.from_bucket | Rev001 => Part001.from_bucket end.

Definition mime (v : Revision) : string -> string :=
  match v with Rev000 => Part000.getMimeType | Rev001 => Part001.getMimeType end.

(** The live branch of each revision. *)
Definition proxy (v : Revision) : Request -> string -> string -> Eff Outcome :=
  match v with Rev000 => Part000.live_proxy | Rev001 => Part001.live_proxy end.

(** The store key [fetch] derives from the decoded path (none when the
    request is turned away before the store is consulted). *)
Definition normalizedKey (v : Revision) (decoded : string) : option string :=
  let path := strip_leading_slash decoded in
  match v with
  | Rev000 =>
      Some (if String.eqb path "" || String.eqb path "/" then "index.html" else path)
  | Rev001 =>
      if startsWith path "maps/" then Some (substring_from 5 path) else None
  end.

(** The tile test, on the key each revision applies it to. *)
Definition is_tile (v : Revision) (key : string) : bool :=
  match v with
  | Rev000 => Part000.isTilePath key
  | Rev001 => segment_then "tiles" key
  end.

(** The keys for which a revision asks for the [.gz] object first. *)
Definition gz_first (v : Revision) (key : string) : bool :=
  match v with
  | Rev000 => Part000.shouldTryGz key
  | Rev001 =>
      endsWith key ".prbm" || endsWith key "textures.json"
      || endsWith key "settings.json"
  end.

(** The response built from a found object. *)
Definition found_response (v : Revision) (object : R2ObjectBody)
    (contentType : string) (gzipped : bool) (request : Request) : Response :=
  match v with
  | Rev000 => Part000.r2Response object contentType gzipped 86400%N (Some request)
  | Rev001 =>
      if gzipped then Part001.compressedR2Response object contentType request
      else Part001.r2Response object contentType request
  end.

(** The response once every candidate is absent. *)
Definition absent_response (v : Revision) (key : string) : Response :=
  match v with
  | Rev000 =>
      if Part000.isTilePath key then mkResponse BodyNull 204 Part000.cors_only
      else textResponse "Not Found" 404 Part000.cors_only
  | Rev001 =>
      if segment_then "tiles" key then Part001.emptyResponse 204
      else Part001.emptyResponse 404
  end.

(** How key resolution ends: an object wins (and is or is not the
    compressed candidate), every candidate is absent, or the store refuses a
    key with an exception. *)
Inductive Resolution :=
| Hit (object : R2ObjectBody) (gzipped : bool)
| Miss
| Refused (error : string).

(** Key resolution on its own: the keys probed, in order, and how it ends. *)
Definition resolve (v : Revision) (b : R2Bucket) (key : string)
    : list string * Resolution :=
  let gzKey := key +:+ ".gz" in
  if gz_first v key then
    match get_reply b gzKey with
    | Thrown error => ([gzKey], Refused error)
    | Resolved (Some o) => ([gzKey], Hit o true)
    | Resolved None =>
        match get_reply b key with
        | Thrown error => ([gzKey; key], Refused error)
        | Resolved (Some o) => ([gzKey; key], Hit o false)
        | Resolved None =>
            match v with
            | Rev000 => ([gzKey; key], Miss)
            | Rev001 => ([gzKey; key; gzKey], Miss)
            end
        end
    end
  else
    match get_reply b key with
    | Thrown error => ([key], Refused error)
    | Resolved (Some o) => ([key], Hit o false)
    | Resolved None =>
        if endsWith key ".gz" then ([key], Miss)
        else match get_reply b gzKey with
             | Thrown error => ([key; gzKey], Refused error)
             | Resolved (Some o) => ([key; gzKey], Hit o true)
             | Resolved None => ([key; gzKey], Miss)
             end
    end.

(** The outcome of the handler for each end of key resolution. *)
Definition settled (v : Revision) (request : Request) (key : string)
    (ending : Resolution) : Outcome :=
  match ending with
  | Hit o gz => Respond (found_response v o (mime v key) gz request)
  | Miss => Respond (absent_response v key)
  | Refused error => Throw error
  end.

(** The compressed-only set as the specification names it. *)
Definition compressed_only (key : string) : Prop :=
  endsWith key ".prbm" = true ∨ endsWith key "textures.json" = true
  ∨ endsWith key "settings.json" = true.

Definition reads (request : Request) : Prop :=
  method request = "GET" ∨ method request = "HEAD".

Definition not_debug (request : Request) : Prop :=
  pathname request ≠ "/debug/live" ∧ pathname request ≠ "/debug".

(** A read request that gets as far as the store or the live origin: its
    path decodes to [decoded], from which the handler derives [key]. *)
Definition reaches (v : Revision) (w : World) (request : Request)
    (decoded key : string) : Prop :=
  reads request ∧ (v = Rev001 → not_debug request)
  ∧ decodeURIComponent w (pathname request) = Some decoded
  ∧ normalizedKey v decoded = Some key.

(** The live test of both revisions, on the path without its leading slash. *)
Definition is_live (decoded : string) : bool :=
  maps_segment_then "live" (strip_leading_slash decoded).

(** The request is not handed to the live origin. *)
Definition unproxied (env : Env) (decoded : string) : Prop :=
  configured (LIVE_SERVER_ORIGIN env) = None ∨ is_live decoded = false.

(** The request's validator, if any, does not select [object]. *)
Definition fresh (request : Request) (object : R2ObjectBody) : Prop :=
  if_none_match_hits (req_headers request) (httpEtag object) = false.

Definition store_accesses (t : list Event) : list Event :=
  filter (fun e => is_store_access e = true) t.

Definition network_calls (t : list Event) : list Event :=
  filter (fun e => is_network_call e = true) t.

(** The same request without its [If-None-Match] header. *)
Definition without_validator (request : Request) : Request :=
  {| method := method request; pathname := pathname request;
     searchParams := searchParams request;
     req_headers := delete (toLowerCase "If-None-Match") (req_headers request) |}.

(** The probing order claimed for the compressed-only set: the [.gz] key,
    then the plain key, stopping at the first hit. *)
Definition gz_then_plain (key : string) (t : list Event) : Prop :=
  t = [BucketGet (key +:+ ".gz")] ∨ t = [BucketGet (key +:+ ".gz"); BucketGet key].

(** The compressed-only set of each revision. *)
Definition gz_only_set (v : Revision) (key : string) : Prop :=
  endsWith key ".prbm" = true ∨ endsWith key "textures.json" = true
  ∨ (v = Rev001 ∧ endsWith key "settings.json" = true).

Fixpoint free_of (sep : ascii) (s : string) : bool :=
  match s with
  | "" => true
  | String c s' => negb (Ascii.eqb c sep) && free_of sep s'
  end.

(** The tile keys of each revision, by their shape: [maps/<map>/tiles/<rest>]
    in part_000, whose keys keep the [maps/] prefix, and [<map>/tiles/<rest>]
    in part_001; [<map>] is not empty and holds no slash. *)
Definition tile_key (v : Revision) (map rest : string) : string :=
  match v with
  | Rev000 => "maps/" +:+ map +:+ "/tiles/" +:+ rest
  | Rev001 => map +:+ "/tiles/" +:+ rest
  end.

Definition tile_shaped (v : Revision) (key : string) : Prop :=
  ∃ map rest, map ≠ "" ∧ free_of "/" map = true ∧ key = tile_key v map rest.

(** The stored object that answers a request for [key], and whether it is
    the compressed candidate.  The [.gz] object answers when the key is in
    the revision's compressed-only set or the plain object is absent; the
    plain object answers when the key is outside that set or the [.gz]
    object is absent. *)
Definition answers (v : Revision) (b : R2Bucket) (key : string)
    (gzipped : bool) (object : R2ObjectBody) : Prop :=
  if gzipped then
    objects b !! (key +:+ ".gz") = Some object
    ∧ (gz_only_set v key
       ∨ (endsWith key ".gz" = false ∧ objects b !! key = None))
  else
    objects b !! key = Some object
    ∧ (¬ gz_only_set v key
       ∨ (valid_key (key +:+ ".gz") = true
          ∧ objects b !! (key +:+ ".gz") = None)).

(** A run with one more call logged in front. *)
Definition logged (e : Event) {A} (run : list Event * A) : list Event * A :=
  (e :: run.1, run.2).

(** ** Concrete requests and worlds for the examples *)

Fixpoint escape_free (s : string) : bool :=
  match s with
  | "" => true
  | String "%"%char _ => false
  | String _ s' => escape_free s'
  end.

(** [decodeURIComponent] leaves a string without escapes unchanged; the
    examples stay within such strings. *)
Definition decode_plain (s : string) : option string :=
  if escape_free s then Some s else None.

(** The examples' URLs are in serialised form already. *)
Definition offline : World :=
  {| decodeURIComponent := decode_plain;
     request_url := Some;
     network := fun _ => Rejected "connection refused";
     elapsed := 0 |}.

Definition online (reply : OriginResponse) : World :=
  {| decodeURIComponent := decode_plain;
     request_url := Some;
     network := fun _ => Fetched reply;
     elapsed := 12 |}.

(** A bucket holding [store]; its listing reports the keys under the prefix. *)
Definition bucket_of (store : gmap string R2ObjectBody) : R2Bucket :=
  {| entries := store;
     list_reply := fun opts =>
       Resolved
         {| listed_objects :=
              (fun kv => (kv.1, Z.of_nat (String.length (object_body kv.2))))
                <$> filter (fun kv => startsWith kv.1 (default "" (prefix opts)) = true)
                      (map_to_list (filter (fun kv => valid_key kv.1 = true) store));
            truncated := false |} |}.

Definition env_of (store : gmap string R2ObjectBody) (live : option string) : Env :=
  {| BUCKET := bucket_of store; LIVE_SERVER_ORIGIN := live |}.

Definition request_of (m path : string) : Request :=
  {| method := m; pathname := path; searchParams := ∅; req_headers := ∅ |}.

Definition stored (etag bytes : string) : R2ObjectBody :=
  {| httpEtag := etag; object_body := bytes |}.


(** A name of [n] letters. *)
Fixpoint letters (n : nat) : string :=
  match n with
  | 0 => ""
  | S n' => String "x" (letters n')
  end.

(** An origin reply that asks to be cached for an hour. *)
Definition hour_cached_reply : OriginResponse :=
  {| origin_status := 200; origin_statusText := "OK";
     origin_headers :=
       headers_of [("Content-Type", "application/json");
                   ("Cache-Control", "max-age=3600")];
     origin_body := "{}" |}.

(** ** Further definitions for the properties *)

(** The same request under another method. *)
Definition with_method (m : string) (request : Request) : Request :=
  {| method := m; pathname := pathname request;
     searchParams := searchParams request; req_headers := req_headers request |}.

(** [n] slashes. *)
Fixpoint slashes (n : nat) : string :=
  match n with 0 => "" | S n' => String "/" (slashes n') end.

(** ** The upload script, [src/scripts/upload-to-r2.mjs] *)

Module Upload.

(** What [statSync] tells of an entry: a regular file, a directory with its
    entries in [readdirSync] order, or something that is neither. *)
Inductive Node :=
| File
| Directory (entries : list (string * Node))
| Special.

Definition IGNORE : gset string :=
  list_to_set ["node_modules"; ".git"; ".wrangler"; "src"; "scripts";
               "wrangler.toml"; "package.json"; "package-lock.json";
               "tsconfig.json"; "sql.php"].

(** [rel.split(/[\\/]/)[0]]: the text before the first slash or backslash. *)
Fixpoint first_piece (rel : string) : string :=
  match rel with
  | "" => ""
  | String c rel' =>
      if Ascii.eqb c "/" || Ascii.eqb c "\" then "" else String c (first_piece rel')
  end.

(** [pieces.join(sep)] *)
Fixpoint join (sep : string) (pieces : list string) : string :=
  match pieces with
  | [] => ""
  | piece :: rest =>
      match rest with
      | [] => piece
      | _ :: _ => piece +:+ sep +:+ join sep rest
      end
  end.

(** A path under the webroot is kept as the list of names from the webroot
    down; [relative(WEBROOT, full)] is those names joined by the platform's
    separator [sep]. *)
Definition relative_names (sep : ascii) (names : list string) : string :=
  join (String sep "") names.

(** [walk(dir)], for a directory [dir] found at [names] below the webroot.
    The tree is taken to be readable: every entry can be listed and
    examined.  [walk] is only ever called on directories. *)
Fixpoint walk (sep : ascii) (names : list string) (dir : Node) {struct dir}
    : list (list string) :=
  match dir with
  | Directory entries =>
      (fix each (remaining : list (string * Node)) : list (list string) :=
         match remaining with
         | [] => []
         | (entry, node) :: others =>
             let full := names ++ [entry] in
             let rel := relative_names sep full in
             let topLevel := first_piece rel in
             if bool_decide (topLevel ∈ IGNORE) || bool_decide (entry ∈ IGNORE)
             then each others
             else
               match node with
               | Directory _ => walk sep full node ++ each others
               | File => full :: each others
               | Special => each others
               end
         end) entries
  | File | Special => []
  end.

(** [toR2Key(filePath)], given Node's [relative(WEBROOT, _)]. *)
Definition toR2Key (relative : string -> string) (filePath : string) : string :=
  join "/" (split "\" (relative filePath)).

Definition content_types : gmap string string :=
  list_to_map [
    ("html", "text/html");
    ("css", "text/css");
    ("js", "text/javascript");
    ("json", "application/json");
    ("png", "image/png");
    ("jpg", "image/jpeg");
    ("jpeg", "image/jpeg");
    ("gif", "image/gif");
    ("webp", "image/webp");
    ("svg", "image/svg+xml");
    ("ico", "image/x-icon");
    ("ttf", "font/ttf");
    ("woff", "font/woff");
    ("woff2", "font/woff2");
    ("gz", "application/gzip");
    ("prbm", "application/octet-stream");
    ("txt", "text/plain");
    ("xml", "text/xml")
  ].

(** [contentType(key)]; its table is an object literal too, see
    [Part000.inherited_member]. *)
Definition contentType (key : string) : string :=
  let ext := from_option toLowerCase "" (pop (split "." key)) in
  match content_types !! ext with
  | Some type => type
  | None => default "application/octet-stream" (Part000.inherited_member ext)
  end.

Definition quote : string := String (ascii_of_nat 34) "".

(** The [wrangler] command line for one file. *)
Definition command (bucket key file ct : string) : string :=
  "npx wrangler r2 object put " +:+ quote +:+ bucket +:+ "/" +:+ key +:+ quote
  +:+ " --file=" +:+ quote +:+ file +:+ quote
  +:+ " --content-type=" +:+ quote +:+ ct +:+ quote.

Record Tally := {
  uploaded : nat;
  failed : nat;
  executed : list string   (* the commands handed to [execSync], in order *)
}.

(** The main loop.  [exec] tells whether [execSync] returns for a command
    ([false]: it throws, the command having failed). *)
Fixpoint upload_loop (relative : string -> string) (bucket : string)
    (dry_run : bool) (exec : string -> bool) (files : list string) (tally : Tally)
    : Tally :=
  match files with
  | [] => tally
  | file :: rest =>
      let key := toR2Key relative file in
      let ct := contentType key in
      let cmd := command bucket key file ct in
      if dry_run then
        upload_loop relative bucket dry_run exec rest
          {| uploaded := S (uploaded tally); failed := failed tally;
             executed := executed tally |}
      else if exec cmd then
        upload_loop relative bucket dry_run exec rest
          {| uploaded := S (uploaded tally); failed := failed tally;
             executed := executed tally ++ [cmd] |}
      else
        upload_loop relative bucket dry_run exec rest
          {| uploaded := uploaded tally; failed := S (failed tally);
             executed := executed tally ++ [cmd] |}
  end.

(** The script from [walk]'s result on: the final tally and the exit code
    ([process.exit(1)] when an upload failed). *)
Definition upload_all (relative : string -> string) (bucket : string)
    (dry_run : bool) (exec : string -> bool) (files : list string) : Tally * nat :=
  let tally :=
    upload_loop relative bucket dry_run exec files
      {| uploaded := 0; failed := 0; executed := [] |} in
  (tally, if 0 <? failed tally then 1 else 0).

(** The names of a tree: [in_tree entries path node] when following [path]
    from a directory with these entries leads to [node]. *)
Inductive in_tree : list (string * Node) -> list string -> Node -> Prop :=
| in_tree_here entries entry node :
    (entry, node) ∈ entries -> in_tree entries [entry] node
| in_tree_below entries entry inside path node :
    (entry, Directory inside) ∈ entries -> in_tree inside path node ->
    in_tree entries (entry :: path) node.

(** [s.split("\\").join("/")] seen character by character. *)
Fixpoint slashed (s : string) : string :=
  match s with
  | "" => ""
  | String c s' => String (if Ascii.eqb c "\" then "/"%char else c) (slashed s')
  end.

End Upload.

(** What [walk] keeps of the paths below a directory found at [names]. *)
Definition kept (names : list string) (entries : list (string * Upload.Node))
    (full : list string) : Prop :=
  ∃ path, full = names ++ path
    ∧ Upload.in_tree entries path Upload.File
    ∧ Forall (fun name => name ∉ Upload.IGNORE) path
    ∧ Upload.first_piece (hd "" full) ∉ Upload.IGNORE.

(** A small webroot: the web application, the worker's own sources and one
    rendered map. *)
Definition example_webroot : list (string * Upload.Node) :=
  [("index.html", Upload.File);
   ("src", Upload.Directory [("index.ts", Upload.File)]);
   ("wrangler.toml", Upload.File);
   ("maps", Upload.Directory
      [("world", Upload.Directory
          [("textures.json.gz", Upload.File);
           ("node_modules", Upload.Directory [("x.js", Upload.File)]);
           ("live", Upload.Special)])])].

(** * Properties *)

(** ** Strings *)

Lemma app_cons c (s t : string) : String c s +:+ t = String c (s +:+ t).
Proof. reflexivity. Qed.

Lemma append_nil_r (s : string) : s +:+ "" = s.
Proof. induction s as [|c s IH]; [done|]. by rewrite app_cons, IH. Qed.

Lemma append_assoc (a b c : string) : (a +:+ b) +:+ c = a +:+ (b +:+ c).
Proof. induction a as [|x a IH]; [done|]. by rewrite !app_cons, IH. Qed.

Lemma rev_app_spec (s t : string) : String.rev_app s t = String.rev s +:+ t.
Proof.
  unfold String.rev. revert t. induction s as [|c s IH]; intros t; [done|].
  simpl. rewrite IH, (IH (String c "")), append_assoc. done.
Qed.

Lemma rev_cons c (s : string) : String.rev (String c s) = String.rev s +:+ String c "".
Proof. unfold String.rev at 1. simpl. apply rev_app_spec. Qed.

Lemma rev_append (s t : string) : String.rev (s +:+ t) = String.rev t +:+ String.rev s.
Proof.
  induction s as [|c s IH].
  - by rewrite append_nil_r.
  - by rewrite app_cons, !rev_cons, IH, append_assoc.
Qed.

Lemma rev_involutive (s : string) : String.rev (String.rev s) = s.
Proof.
  induction s as [|c s IH]; [done|].
  by rewrite rev_cons, rev_append, IH.
Qed.

Lemma startsWith_append (p r : string) : startsWith (p +:+ r) p = true.
Proof.
  induction p as [|c p IH]; [done|].
  rewrite app_cons. simpl. rewrite Ascii.eqb_refl. apply IH.
Qed.

Lemma startsWith_inv (s p : string) :
  startsWith s p = true → ∃ r, s = p +:+ r.
Proof.
  revert s. induction p as [|c p IH]; intros s H.
  - by exists s.
  - destruct s as [|b s]; [done|]. simpl in H.
    destruct (Ascii.eqb c b) eqn:E; [|done].
    apply Ascii.eqb_eq in E as ->. destruct (IH _ H) as [r ->]. by exists r.
Qed.

Lemma endsWith_append (k suf : string) : endsWith (k +:+ suf) suf = true.
Proof. unfold endsWith. rewrite rev_append. apply startsWith_append. Qed.

Lemma endsWith_rev (s suf : string) :
  endsWith s suf = true → ∃ r, String.rev s = String.rev suf +:+ r.
Proof. apply startsWith_inv. Qed.

Lemma endsWith_inv (s suf : string) :
  endsWith s suf = true → ∃ k, s = k +:+ suf.
Proof.
  intros [r Hr]%endsWith_rev. exists (String.rev r).
  by rewrite <-(rev_involutive s), Hr, rev_append, rev_involutive.
Qed.


Lemma after_first_slash_spec s rest :
  after_first_slash s = Some rest ↔
  ∃ run, free_of "/" run = true ∧ s = run +:+ String "/" rest.
Proof.
  split.
  - revert rest. induction s as [|c s IH]; intros rest H; [done|].
    simpl in H. destruct (Ascii.eqb c "/") eqn:E.
    + apply Ascii.eqb_eq in E as ->. injection H as <-. by exists "".
    + assert (after_first_slash s = Some rest) as H'.
      { destruct c as [[] [] [] [] [] [] [] []]; try done. }
      destruct (IH _ H') as (run & Hf & ->). exists (String c run).
      split; [|done]. simpl. by rewrite E.
  - intros (run & Hf & ->). induction run as [|c run IH]; [done|].
    simpl in Hf. apply andb_prop in Hf as [Hc Hf].
    rewrite app_cons. simpl.
    destruct c as [[] [] [] [] [] [] [] []]; try done; by apply IH.
Qed.

Lemma after_segment_spec s rest :
  after_segment s = Some rest ↔
  ∃ id, id ≠ "" ∧ free_of "/" id = true ∧ s = id +:+ String "/" rest.
Proof.
  split.
  - destruct s as [|c s]; [done|]. simpl.
    destruct (Ascii.eqb c "/") eqn:E.
    + apply Ascii.eqb_eq in E as ->. done.
    + intros H. assert (after_first_slash s = Some rest) as H'.
      { destruct c as [[] [] [] [] [] [] [] []]; try done. }
      apply after_first_slash_spec in H' as (run & Hf & ->).
      exists (String c run). split; [done|]. split; [|done]. simpl. by rewrite E.
  - intros (id & Hne & Hf & ->). destruct id as [|c id]; [done|].
    simpl in Hf. apply andb_prop in Hf as [Hc Hf].
    rewrite app_cons. simpl.
    assert (after_first_slash (id +:+ String "/" rest) = Some rest) as H
      by (apply after_first_slash_spec; eauto).
    destruct c as [[] [] [] [] [] [] [] []]; try done.
Qed.

Lemma segment_then_spec dir s :
  segment_then dir s = true ↔
  ∃ id rest, id ≠ "" ∧ free_of "/" id = true
    ∧ s = id +:+ "/" +:+ dir +:+ "/" +:+ rest.
Proof.
  unfold segment_then. split.
  - destruct (after_segment s) as [r|] eqn:E; [|done].
    apply after_segment_spec in E as (id & Hne & Hf & ->).
    intros [rest ->]%startsWith_inv.
    exists id, rest. by rewrite !append_assoc.
  - intros (id & rest & Hne & Hf & ->).
    assert (after_segment (id +:+ "/" +:+ dir +:+ "/" +:+ rest)
            = Some (dir +:+ "/" +:+ rest)) as ->
      by (apply after_segment_spec; eauto).
    rewrite <-append_assoc. apply startsWith_append.
Qed.

Ltac by_suffix H :=
  let r := fresh "r" in let Hr := fresh "Hr" in
  apply endsWith_rev in H as [r Hr]; unfold endsWith; rewrite ?Hr; try reflexivity.

Lemma gz_first_not_gz v key : gz_first v key = true → endsWith key ".gz" = false.
Proof.
  destruct v; simpl.
  - unfold Part000.shouldTryGz. by destruct (endsWith key ".gz").
  - intros H. repeat apply orb_prop in H as [H|H]; by_suffix H.
Qed.

Lemma split_go_free sep cur e :
  free_of sep e = true → split_go sep cur e = [String.rev cur +:+ e].
Proof.
  revert cur. induction e as [|c e IH]; intros cur H; simpl.
  - by rewrite append_nil_r.
  - simpl in H. apply andb_prop in H as [Hc He].
    destruct (Ascii.eqb c sep); [done|].
    rewrite IH by done. by rewrite rev_cons, append_assoc.
Qed.

Lemma split_go_last sep cur a e :
  free_of sep e = true →
  last (split_go sep cur (a +:+ String sep e)) = Some e.
Proof.
  intros He. revert cur. induction a as [|c a IH]; intros cur.
  - change ("" +:+ String sep e) with (String sep e). simpl.
    rewrite Ascii.eqb_refl, split_go_free by done. done.
  - rewrite app_cons. simpl. destruct (Ascii.eqb c sep).
    + rewrite last_cons, IH. done.
    + apply IH.
Qed.

Lemma pop_split_suffix s e :
  endsWith s (String "." e) = true → free_of "." e = true →
  pop (split "." s) = Some e.
Proof.
  intros [k ->]%endsWith_inv He. by apply split_go_last.
Qed.

Lemma mime000_of_ext s e :
  endsWith s (String "." e) = true → free_of "." e = true →
  Part000.getMimeType s
  = match Part000.MIME_TYPES !! toLowerCase e with
    | Some type => type
    | None => default "application/octet-stream" (Part000.inherited_member (toLowerCase e))
    end.
Proof.
  intros Hs He. unfold Part000.getMimeType. by rewrite (pop_split_suffix _ _ Hs He).
Qed.

Lemma endsWith_weaken s a b : endsWith s (a +:+ b) = true → endsWith s b = true.
Proof.
  intros [k ->]%endsWith_inv. rewrite <-append_assoc. apply endsWith_append.
Qed.

Lemma mime_json v key :
  endsWith key ".json" = true →
  mime v key = match v with
               | Rev000 => "application/json; charset=utf-8"
               | Rev001 => "application/json"
               end.
Proof.
  intros H. destruct v; simpl.
  - by rewrite (mime000_of_ext key "json").
  - unfold Part001.getMimeType. by_suffix H.
Qed.

Lemma mime_prbm v key :
  endsWith key ".prbm" = true → mime v key = "application/octet-stream".
Proof.
  intros H. destruct v; simpl.
  - by rewrite (mime000_of_ext key "prbm").
  - unfold Part001.getMimeType. by rewrite H.
Qed.

(** ** Runs *)

Lemma bind_ret {A B} (a : A) (k : A → Eff B) w : (mret a ≫= k) w = k a w.
Proof. unfold mbind, eff_bind, mret, eff_ret. by destruct (k a w). Qed.

Lemma bind_decode {B} s (k : option string → Eff B) w :
  (decode_uri s ≫= k) w = k (decodeURIComponent w s) w.
Proof. unfold mbind, eff_bind, decode_uri. by destruct (k _ w). Qed.

Lemma bind_get {B} b key (k : Awaited (option R2ObjectBody) → Eff B) w :
  (bucket_get b key ≫= k) w = logged (BucketGet key) (k (get_reply b key) w).
Proof. unfold mbind, eff_bind, bucket_get, logged. by destruct (k _ w). Qed.

Lemma bind_new_request {B} url (k : option string → Eff B) w :
  (new_request url ≫= k) w = k (request_url w url) w.
Proof. unfold mbind, eff_bind, new_request. by destruct (k _ w). Qed.

(** The store and its key limit. *)
Lemma objects_valid b key o : objects b !! key = Some o → valid_key key = true.
Proof. unfold objects. by intros [_ H]%map_lookup_filter_Some. Qed.

Lemma get_reply_stored b key o :
  objects b !! key = Some o → get_reply b key = Resolved (Some o).
Proof.
  intros H. unfold get_reply. by rewrite (objects_valid _ _ _ H), H.
Qed.

Lemma get_reply_absent b key :
  valid_key key = true → objects b !! key = None → get_reply b key = Resolved None.
Proof. intros Hv H. unfold get_reply. by rewrite Hv, H. Qed.

Lemma append_length (s t : string) :
  String.length (s +:+ t) = String.length s + String.length t.
Proof. induction s as [|c s IH]; simpl; [done|]. by rewrite IH. Qed.

Lemma valid_key_shorter key suffix :
  valid_key (key +:+ suffix) = true → valid_key key = true.
Proof.
  unfold valid_key. rewrite append_length, !Nat.leb_le. lia.
Qed.

Lemma get_reply_cases b key :
  (valid_key key = true ∧ get_reply b key = Resolved (objects b !! key))
  ∨ (valid_key key = false ∧ objects b !! key = None
     ∧ ∃ error, get_reply b key = Thrown error).
Proof.
  unfold get_reply. destruct (valid_key key) eqn:E; [by left|right].
  split; [done|]. split; [|eauto].
  destruct (objects b !! key) eqn:Ho; [|done].
  apply objects_valid in Ho. congruence.
Qed.

Lemma bind_fetch {B} rq (k : FetchResult → Eff B) w :
  (net_fetch rq ≫= k) w = logged (NetFetch rq) (k (network w rq) w).
Proof. unfold mbind, eff_bind, net_fetch, logged. by destruct (k _ w). Qed.

Lemma serve_resolve v request env key w :
  serve v request env key w =
  let '(keys, ending) := resolve v (BUCKET env) key in
  (BucketGet <$> keys, settled v request key ending).
Proof.
  unfold resolve, settled.
  destruct (gz_first v key) eqn:Hgz.
  - pose proof (gz_first_not_gz _ _ Hgz) as Hn.
    destruct v; simpl in Hgz |- *.
    + unfold Part000.from_bucket. rewrite Hgz, !bind_get.
      destruct (get_reply (BUCKET env) (key +:+ ".gz")) as [[?|]|?]; [done| |done].
      rewrite ?bind_get.
      destruct (get_reply (BUCKET env) key) as [[?|]|?]; [done| |done].
      by destruct (Part000.isTilePath key).
    + unfold Part001.from_bucket. rewrite Hgz, !bind_get.
      destruct (get_reply (BUCKET env) (key +:+ ".gz")) as [[?|]|?] eqn:E;
        [done| |done].
      rewrite ?bind_get.
      destruct (get_reply (BUCKET env) key) as [[?|]|?]; [done| |done].
      rewrite Hn. cbn [negb]. rewrite ?bind_get, ?E.
      by destruct (segment_then "tiles" key).
  - destruct v; simpl in Hgz |- *.
    + unfold Part000.from_bucket. rewrite Hgz, !bind_get.
      destruct (get_reply (BUCKET env) key) as [[?|]|?]; [done| |done].
      destruct (endsWith key ".gz"); cbn [negb].
      * by destruct (Part000.isTilePath key).
      * rewrite ?bind_get.
        destruct (get_reply (BUCKET env) (key +:+ ".gz")) as [[?|]|?]; [done| |done].
        by destruct (Part000.isTilePath key).
    + unfold Part001.from_bucket. rewrite Hgz, !bind_get.
      destruct (get_reply (BUCKET env) key) as [[?|]|?]; [done| |done].
      destruct (endsWith key ".gz"); cbn [negb].
      * by destruct (segment_then "tiles" key).
      * rewrite ?bind_get.
        destruct (get_reply (BUCKET env) (key +:+ ".gz")) as [[?|]|?]; [done| |done].
        by destruct (segment_then "tiles" key).
Qed.

Lemma reads_methods request :
  reads request →
  String.eqb (method request) "OPTIONS" = false
  ∧ negb (String.eqb (method request) "GET")
    && negb (String.eqb (method request) "HEAD") = false.
Proof. by intros [-> | ->]. Qed.

Lemma not_debug_eqb request :
  not_debug request →
  String.eqb (pathname request) "/debug/live" = false
  ∧ String.eqb (pathname request) "/debug" = false.
Proof. intros [H1 H2]. by split; apply String.eqb_neq. Qed.

Lemma root_not_live path :
  String.eqb path "" || String.eqb path "/" = true →
  maps_segment_then "live" path = false.
Proof.
  intros [H|H]%orb_prop; apply String.eqb_eq in H as ->; reflexivity.
Qed.

Lemma handler_serves v w request env decoded key :
  reaches v w request decoded key → unproxied env decoded →
  handler v request env w = serve v request env key w.
Proof.
  intros (Hm & Hd & Hp & Hk) Hu.
  destruct (reads_methods _ Hm) as [Ho Hr].
  unfold unproxied, is_live, normalizedKey in *.
  set (path := strip_leading_slash decoded) in *.
  destruct v; unfold handler, serve.
  - unfold Part000.fetch. rewrite bind_decode, Hp, Ho, Hr.
    injection Hk as <-. fold path.
    assert (Part000.isLivePath
              (if String.eqb path "" || String.eqb path "/" then "index.html" else path)
            = true → configured (LIVE_SERVER_ORIGIN env) = None) as Hl.
    { destruct (String.eqb path "" || String.eqb path "/") eqn:E;
        [intros Hl; by vm_compute in Hl|].
      intros Hl. destruct Hu as [Hu|Hu]; [done|].
      unfold Part000.isLivePath in Hl. congruence. }
    destruct (Part000.isLivePath _); [by rewrite Hl|done].
  - destruct (not_debug_eqb _ (Hd eq_refl)) as [H1 H2].
    unfold Part001.fetch. rewrite H1, H2, Ho, Hr, bind_decode, Hp.
    fold path. destruct (startsWith path "maps/"); [|done].
    injection Hk as <-. cbn [negb].
    destruct Hu as [-> | ->]; [done|].
    by destruct (configured _).
Qed.


(** ** Responses built from a found object *)

Ltac lower_names :=
  repeat match goal with
  | |- context [toLowerCase ?s] =>
      let s' := eval vm_compute in (toLowerCase s) in
      change (toLowerCase s) with s'
  end.

(** Look a literal header name up in a chain of [headers_set]. *)
Ltac header_lookup :=
  unfold headers_get, headers_set, headers_of; cbn [foldl fst snd]; lower_names;
  repeat first
    [ rewrite lookup_insert_eq
    | rewrite lookup_insert_ne by discriminate
    | rewrite lookup_empty ];
  try reflexivity.

Ltac unfold_found :=
  unfold found_response, Part000.r2Response, Part001.r2Response,
    Part001.compressedR2Response.

Lemma found_headers_get v o ct gz request :
  let h := headers (found_response v o ct gz request) in
  headers_get "Content-Type" h = Some ct
  ∧ headers_get "Content-Encoding" h = (if gz then Some "gzip" else None)
  ∧ headers_get "ETag" h = Some (httpEtag o)
  ∧ headers_get "Cache-Control" h = Some "public, max-age=86400"
  ∧ headers_get "Access-Control-Allow-Origin" h = Some "*".
Proof.
  destruct v, gz; unfold_found;
    destruct (if_none_match_hits _ _); cbn [headers mkResponse];
    repeat split; header_lookup.
Qed.

(** The headers of a found object do not depend on the request. *)
Lemma found_headers_indep v o ct gz request request' :
  headers (found_response v o ct gz request)
  = headers (found_response v o ct gz request').
Proof.
  destruct v, gz; unfold_found;
    by destruct (if_none_match_hits _ _), (if_none_match_hits _ _).
Qed.

Lemma found_fresh v o ct gz request :
  fresh request o →
  status (found_response v o ct gz request) = 200
  ∧ body (found_response v o ct gz request) = BodyStream (object_body o).
Proof.
  unfold fresh. intros H.
  destruct v, gz; unfold_found; by rewrite H.
Qed.

Lemma found_validated v o ct gz request :
  if_none_match_hits (req_headers request) (httpEtag o) = true →
  status (found_response v o ct gz request) = 304
  ∧ body (found_response v o ct gz request) = BodyNull.
Proof.
  intros H.
  destruct v, gz; unfold_found; by rewrite H.
Qed.

(** ** Key resolution *)

Lemma handler_resolve v w request env decoded key :
  reaches v w request decoded key → unproxied env decoded →
  handler v request env w =
  let '(keys, ending) := resolve v (BUCKET env) key in
  (BucketGet <$> keys, settled v request key ending).
Proof.
  intros Hr Hu. rewrite (handler_serves _ _ _ _ _ _ Hr Hu). apply serve_resolve.
Qed.

Lemma compressed_only_not_gz key : compressed_only key → endsWith key ".gz" = false.
Proof. intros [H|[H|H]]; by_suffix H. Qed.

Lemma compressed_only_type key :
  compressed_only key → endsWith key ".prbm" = true ∨ endsWith key ".json" = true.
Proof.
  intros [H|[H|H]]; [by left|right..].
  - by apply (endsWith_weaken key "textures" ".json").
  - by apply (endsWith_weaken key "settings" ".json").
Qed.

Lemma resolve_only_gz v b key o :
  endsWith key ".gz" = false →
  objects b !! (key +:+ ".gz") = Some o → objects b !! key = None →
  ∃ keys, resolve v b key = (keys, Hit o true).
Proof.
  intros Hn Hgz Hk. unfold resolve.
  rewrite (get_reply_stored _ _ _ Hgz),
    (get_reply_absent _ _ (valid_key_shorter _ _ (objects_valid _ _ _ Hgz)) Hk), Hn.
  destruct (gz_first v key); eauto.
Qed.

(** C1: a compressed-only path whose [.gz] object alone is stored is
    answered 200 with [Content-Encoding: gzip] and the content type of the
    requested key, in both revisions. *)
Theorem gz_only_served_compressed v w env request decoded key object :
  reaches v w request decoded key → unproxied env decoded →
  compressed_only key →
  objects (BUCKET env) !! (key +:+ ".gz") = Some object →
  objects (BUCKET env) !! key = None →
  fresh request object →
  ∃ r, result_of (handler v request env w) = Respond r
    ∧ status r = 200
    ∧ body r = BodyStream (object_body object)
    ∧ headers_get "Content-Encoding" (headers r) = Some "gzip"
    ∧ headers_get "Content-Type" (headers r) = Some (mime v key)
    ∧ (endsWith key ".prbm" = true → mime v key = "application/octet-stream")
    ∧ (endsWith key ".json" = true →
       mime v key = match v with
                    | Rev000 => "application/json; charset=utf-8"
                    | Rev001 => "application/json"
                    end).
Proof.
  intros Hr Hu Hc Hgz Hk Hf.
  destruct (resolve_only_gz v _ _ _ (compressed_only_not_gz _ Hc) Hgz Hk) as [keys Hres].
  rewrite (handler_resolve _ _ _ _ _ _ Hr Hu), Hres.
  eexists. split; [reflexivity|].
  destruct (found_fresh v object (mime v key) true request Hf) as [Hs Hb].
  destruct (found_headers_get v object (mime v key) true request) as (Ht & He & _).
  repeat split; auto using mime_prbm, mime_json.
Qed.

Ltac concrete_reach :=
  split; [first [by left | by right]|];
  split; [intros E; first [discriminate E | split; discriminate]|];
  split; reflexivity.

Lemma gz_only_served_compressed_witness :
  (∃ r, result_of (handler Rev001 (request_of "GET" "/maps/world/textures.json")
                     (env_of {["world/textures.json.gz" := stored "v1" "gzip bytes"]} None)
                     offline) = Respond r
     ∧ status r = 200
     ∧ body r = BodyStream "gzip bytes"
     ∧ headers_get "Content-Encoding" (headers r) = Some "gzip"
     ∧ headers_get "Content-Type" (headers r) = Some "application/json")
  ∧ (∃ r, result_of (handler Rev000 (request_of "GET" "/world/textures.json")
                       (env_of {["world/textures.json.gz" := stored "v1" "gzip bytes"]} None)
                       offline) = Respond r
       ∧ status r = 200
       ∧ body r = BodyStream "gzip bytes"
       ∧ headers_get "Content-Encoding" (headers r) = Some "gzip"
       ∧ headers_get "Content-Type" (headers r) = Some "application/json; charset=utf-8").
Proof.
  split.
  - destruct (gz_only_served_compressed Rev001 offline
                (env_of {["world/textures.json.gz" := stored "v1" "gzip bytes"]} None)
                (request_of "GET" "/maps/world/textures.json")
                "/maps/world/textures.json" "world/textures.json"
                (stored "v1" "gzip bytes"))
      as (r & Hr & Hs & Hb & He & Ht & _ & Hj);
      [concrete_reach|by left|right; left; reflexivity|reflexivity..|].
    exists r. rewrite Ht, (Hj eq_refl). auto.
  - destruct (gz_only_served_compressed Rev000 offline
                (env_of {["world/textures.json.gz" := stored "v1" "gzip bytes"]} None)
                (request_of "GET" "/world/textures.json")
                "/world/textures.json" "world/textures.json"
                (stored "v1" "gzip bytes"))
      as (r & Hr & Hs & Hb & He & Ht & _ & Hj);
      [concrete_reach|by left|right; left; reflexivity|reflexivity..|].
    exists r. rewrite Ht, (Hj eq_refl). auto.
Defined.

Lemma gz_only_set_first v key : gz_only_set v key → gz_first v key = true.
Proof.
  intros H.
  assert (endsWith key ".gz" = false) as Hn
    by (destruct H as [H|[H|[_ H]]]; by_suffix H).
  destruct v; simpl.
  - unfold Part000.shouldTryGz. rewrite Hn. simpl.
    destruct H as [->|[->|[? _]]]; [done| |done]. by destruct (endsWith key ".prbm").
  - destruct H as [->|[->|[_ ->]]]; [done|..]; by repeat destruct (endsWith key _).
Qed.

(** C2 (amended): for a key of a revision's compressed-only set whose
    [.gz] key is within the store's limit of 1024 bytes, the [.gz] key is
    probed first and probing stops at the first hit: a stored [.gz] object
    costs one probe, a stored plain object two; in part_000 a total miss
    costs these two probes as well. *)
Theorem gz_first_probing v w env request decoded key :
  reaches v w request decoded key → unproxied env decoded → gz_only_set v key →
  valid_key (key +:+ ".gz") = true →
  match objects (BUCKET env) !! (key +:+ ".gz"), objects (BUCKET env) !! key with
  | Some _, _ =>
      trace_of (handler v request env w) = [BucketGet (key +:+ ".gz")]
  | None, Some _ =>
      trace_of (handler v request env w) = [BucketGet (key +:+ ".gz"); BucketGet key]
  | None, None =>
      v = Rev000 →
      trace_of (handler v request env w) = [BucketGet (key +:+ ".gz"); BucketGet key]
  end.
Proof.
  intros Hr Hu Hs Hv.
  rewrite (handler_resolve _ _ _ _ _ _ Hr Hu). unfold resolve, get_reply.
  rewrite (gz_only_set_first _ _ Hs), Hv, (valid_key_shorter _ _ Hv).
  destruct (objects (BUCKET env) !! (key +:+ ".gz")); [done|].
  destruct (objects (BUCKET env) !! key); [done|].
  by intros ->.
Qed.

Lemma gz_first_probing_witness :
  trace_of (handler Rev001 (request_of "GET" "/maps/world/tiles/0/x0/z0.prbm")
              (env_of {["world/tiles/0/x0/z0.prbm.gz" := stored "v1" "gzip bytes"]} None)
              offline)
    = [BucketGet "world/tiles/0/x0/z0.prbm.gz"]
  ∧ trace_of (handler Rev000 (request_of "GET" "/maps/world/textures.json")
                (env_of ∅ None) offline)
    = [BucketGet "maps/world/textures.json.gz"; BucketGet "maps/world/textures.json"].
Proof.
  split.
  - exact (gz_first_probing Rev001 offline
             (env_of {["world/tiles/0/x0/z0.prbm.gz" := stored "v1" "gzip bytes"]} None)
             (request_of "GET" "/maps/world/tiles/0/x0/z0.prbm")
             "/maps/world/tiles/0/x0/z0.prbm" "world/tiles/0/x0/z0.prbm"
             ltac:(concrete_reach) ltac:(by left) ltac:(left; reflexivity) eq_refl).
  - exact (gz_first_probing Rev000 offline (env_of ∅ None)
             (request_of "GET" "/maps/world/textures.json")
             "/maps/world/textures.json" "maps/world/textures.json"
             ltac:(concrete_reach) ltac:(by left) ltac:(right; left; reflexivity)
             eq_refl eq_refl).
Defined.

(** C2, as stated, fails in part_000: [settings.json] is outside its
    compressed-only set and the plain key is probed first. *)
Lemma settings_json_probed_plain_first :
  compressed_only "maps/world/settings.json"
  ∧ trace_of (handler Rev000 (request_of "GET" "/maps/world/settings.json")
                (env_of ∅ None) offline)
    = [BucketGet "maps/world/settings.json"; BucketGet "maps/world/settings.json.gz"]
  ∧ ¬ gz_then_plain "maps/world/settings.json"
        (trace_of (handler Rev000 (request_of "GET" "/maps/world/settings.json")
                     (env_of ∅ None) offline)).
Proof.
  split; [right; right; reflexivity|]. split; [reflexivity|].
  intros [H|H]; vm_compute in H; discriminate H.
Qed.

(** What part_001 does when neither object is stored: the [.gz] key is
    asked for a second time. *)
Lemma total_miss_probes_001 w env request decoded key :
  reaches Rev001 w request decoded key → unproxied env decoded →
  gz_only_set Rev001 key →
  valid_key (key +:+ ".gz") = true →
  objects (BUCKET env) !! (key +:+ ".gz") = None →
  objects (BUCKET env) !! key = None →
  trace_of (handler Rev001 request env w)
  = [BucketGet (key +:+ ".gz"); BucketGet key; BucketGet (key +:+ ".gz")].
Proof.
  intros Hr Hu Hs Hv Hgz Hk.
  rewrite (handler_resolve _ _ _ _ _ _ Hr Hu). unfold resolve.
  by rewrite (gz_only_set_first _ _ Hs), (get_reply_absent _ _ Hv Hgz),
    (get_reply_absent _ _ (valid_key_shorter _ _ Hv) Hk).
Qed.

Example missing_tile_probes_001 :
  Part001.fetch (request_of "GET" "/maps/world/tiles/0/x99/z99.prbm")
    (env_of ∅ None) offline
  = ([BucketGet "world/tiles/0/x99/z99.prbm.gz";
      BucketGet "world/tiles/0/x99/z99.prbm";
      BucketGet "world/tiles/0/x99/z99.prbm.gz"],
     Respond (Part001.emptyResponse 204)).
Proof. reflexivity. Qed.

(** ** Tiles, live paths and exhaustion *)

Lemma segment_tiles_not_live s :
  segment_then "tiles" s = true → segment_then "live" s = false.
Proof.
  unfold segment_then. destruct (after_segment s) as [rest|]; [|done].
  intros [r ->]%startsWith_inv. reflexivity.
Qed.

Lemma maps_segment_tiles_not_live s :
  maps_segment_then "tiles" s = true → maps_segment_then "live" s = false.
Proof.
  unfold maps_segment_then. destruct (startsWith s "maps/"); [|done].
  apply segment_tiles_not_live.
Qed.

(** A tile key never belongs to a live path, and conversely. *)
Lemma tile_not_live v decoded key :
  normalizedKey v decoded = Some key → is_tile v key = true → is_live decoded = false.
Proof.
  unfold normalizedKey, is_live. set (path := strip_leading_slash decoded).
  destruct v; unfold is_tile.
  - intros Hk. injection Hk as <-. unfold Part000.isTilePath.
    destruct (String.eqb path "" || String.eqb path "/") eqn:E.
    + intros _. by apply root_not_live.
    + apply maps_segment_tiles_not_live.
  - unfold maps_segment_then. destruct (startsWith path "maps/"); [|done].
    intros Hk. injection Hk as <-. apply segment_tiles_not_live.
Qed.

Lemma live_not_tile v decoded key :
  normalizedKey v decoded = Some key → is_live decoded = true → is_tile v key = false.
Proof.
  intros Hk Hl. destruct (is_tile v key) eqn:E; [|done].
  by rewrite (tile_not_live _ _ _ Hk E) in Hl.
Qed.

Lemma resolve_absent v b key :
  valid_key (key +:+ ".gz") = true →
  objects b !! key = None →
  (endsWith key ".gz" = false → objects b !! (key +:+ ".gz") = None) →
  ∃ keys, resolve v b key = (keys, Miss).
Proof.
  intros Hv Hk Hgz. unfold resolve.
  rewrite (get_reply_absent _ _ (valid_key_shorter _ _ Hv) Hk).
  destruct (gz_first v key) eqn:Hf.
  - rewrite (get_reply_absent _ _ Hv (Hgz (gz_first_not_gz _ _ Hf))).
    destruct v; eauto.
  - destruct (endsWith key ".gz"); [eauto|].
    rewrite (get_reply_absent _ _ Hv (Hgz eq_refl)). eauto.
Qed.

(** A key too long for the store: the first [get] throws, and the handler
    with it. *)
Lemma over_long_key_escapes v w env request decoded key :
  reaches v w request decoded key → unproxied env decoded →
  valid_key key = false →
  ∃ probed error,
    handler v request env w = ([BucketGet probed], Throw error)
    ∧ (probed = key ∨ probed = key +:+ ".gz").
Proof.
  intros Hr Hu Hv.
  assert (valid_key (key +:+ ".gz") = false) as Hgz.
  { destruct (valid_key (key +:+ ".gz")) eqn:E; [|done].
    apply valid_key_shorter in E. congruence. }
  rewrite (handler_resolve _ _ _ _ _ _ Hr Hu). unfold resolve, get_reply.
  rewrite Hv, Hgz. destruct (gz_first v key); simpl; eauto 6.
Qed.

Lemma is_tile_spec v key : is_tile v key = true ↔ tile_shaped v key.
Proof.
  unfold tile_shaped, tile_key. destruct v; simpl.
  - unfold Part000.isTilePath, maps_segment_then. split.
    + intros [H1 H2]%andb_prop. apply startsWith_inv in H1 as [t ->].
      change (substring_from 5 ("maps/" +:+ t)) with t in H2.
      apply segment_then_spec in H2 as (id & rest & Hne & Hf & ->).
      by exists id, rest.
    + intros (id & rest & Hne & Hf & ->).
      rewrite startsWith_append.
      change (substring_from 5 ("maps/" +:+ ?t)) with t.
      apply segment_then_spec. by exists id, rest.
  - split.
    + intros (id & rest & Hne & Hf & ->)%segment_then_spec. by exists id, rest.
    + intros (id & rest & Hne & Hf & ->). apply segment_then_spec. by exists id, rest.
Qed.

Lemma is_tile_other v key : ¬ tile_shaped v key → is_tile v key = false.
Proof.
  intros H. destruct (is_tile v key) eqn:E; [|done].
  by apply is_tile_spec in E.
Qed.

Lemma absent_tile v key :
  is_tile v key = true →
  let r := absent_response v key in
  status r = 204 ∧ body r = BodyNull
  ∧ headers_get "Access-Control-Allow-Origin" (headers r) = Some "*"
  ∧ headers_get "Content-Encoding" (headers r) = None
  ∧ headers_get "Cache-Control" (headers r) = None
  ∧ dom (headers r) = {["access-control-allow-origin"]}.
Proof.
  destruct v; simpl; intros ->; cbn [status body headers mkResponse];
    unfold Part001.emptyResponse, Part000.cors_only; cbn [status body headers mkResponse];
    repeat split; try header_lookup.
  all: unfold headers_of, headers_set; cbn [foldl fst snd]; lower_names;
    by rewrite dom_insert_L, dom_empty_L, right_id_L.
Qed.

Lemma absent_other v key :
  is_tile v key = false →
  let r := absent_response v key in
  status r = 404
  ∧ headers_get "Access-Control-Allow-Origin" (headers r) = Some "*".
Proof.
  destruct v; simpl; intros ->;
    unfold Part001.emptyResponse, textResponse, Part000.cors_only;
    cbn [status body headers mkResponse]; split; done.
Qed.

(** C3 (amended): when every candidate key is absent and within the
    store's limit of 1024 bytes, [.gz] suffix included, a tile key, that is
    one of the shape [<map>/tiles/...] below the maps root, is answered 204
    with no body and the CORS header alone (no [Content-Encoding], no
    [Cache-Control]); any other key that is not a live path is answered 404
    with the CORS header. *)
Theorem exhausted_candidates v w env request decoded key :
  reaches v w request decoded key →
  valid_key (key +:+ ".gz") = true →
  objects (BUCKET env) !! key = None →
  (endsWith key ".gz" = false → objects (BUCKET env) !! (key +:+ ".gz") = None) →
  ((∃ map rest, map ≠ "" ∧ free_of "/" map = true ∧ key = tile_key v map rest) →
   ∃ r, result_of (handler v request env w) = Respond r
     ∧ status r = 204 ∧ body r = BodyNull
     ∧ headers_get "Access-Control-Allow-Origin" (headers r) = Some "*"
     ∧ headers_get "Content-Encoding" (headers r) = None
     ∧ headers_get "Cache-Control" (headers r) = None
     ∧ dom (headers r) = {["access-control-allow-origin"]})
  ∧ ((∀ map rest, map ≠ "" → free_of "/" map = true → key ≠ tile_key v map rest) →
     is_live decoded = false →
     ∃ r, result_of (handler v request env w) = Respond r
       ∧ status r = 404
       ∧ headers_get "Access-Control-Allow-Origin" (headers r) = Some "*").
Proof.
  intros Hr Hv Hk Hgz.
  destruct (resolve_absent v _ _ Hv Hk Hgz) as [keys Hres].
  assert (Hkey : normalizedKey v decoded = Some key) by apply Hr.
  split.
  - intros Ht%is_tile_spec.
    rewrite (handler_resolve v w request env decoded key Hr
               (or_intror (tile_not_live _ _ _ Hkey Ht))), Hres.
    eexists. split; [reflexivity|]. by apply absent_tile.
  - intros Ht Hl.
    rewrite (handler_resolve v w request env decoded key Hr (or_intror Hl)), Hres.
    eexists. split; [reflexivity|]. apply absent_other, is_tile_other.
    intros (map & rest & Hne & Hf & E). by apply (Ht map rest).
Qed.

Lemma exhausted_candidates_witness :
  (∃ r, result_of (handler Rev001 (request_of "GET" "/maps/world/tiles/0/x99/z99.prbm")
                     (env_of ∅ (Some "http://mc.example:8100")) offline) = Respond r
     ∧ status r = 204 ∧ body r = BodyNull
     ∧ headers_get "Access-Control-Allow-Origin" (headers r) = Some "*"
     ∧ headers_get "Content-Encoding" (headers r) = None
     ∧ headers_get "Cache-Control" (headers r) = None
     ∧ dom (headers r) = {["access-control-allow-origin"]})
  ∧ (∃ r, result_of (handler Rev000 (request_of "GET" "/maps/world/tiles/1/x7/z7.png")
                       (env_of ∅ None) offline) = Respond r
       ∧ status r = 204 ∧ body r = BodyNull
       ∧ headers_get "Access-Control-Allow-Origin" (headers r) = Some "*"
       ∧ headers_get "Content-Encoding" (headers r) = None
       ∧ headers_get "Cache-Control" (headers r) = None
       ∧ dom (headers r) = {["access-control-allow-origin"]})
  ∧ (∃ r, result_of (handler Rev000 (request_of "HEAD" "/assets/logo.svg")
                       (env_of ∅ None) offline) = Respond r
       ∧ status r = 404
       ∧ headers_get "Access-Control-Allow-Origin" (headers r) = Some "*").
Proof.
  split; [|split].
  - apply (exhausted_candidates Rev001 offline (env_of ∅ (Some "http://mc.example:8100"))
             (request_of "GET" "/maps/world/tiles/0/x99/z99.prbm")
             "/maps/world/tiles/0/x99/z99.prbm" "world/tiles/0/x99/z99.prbm");
      [concrete_reach|reflexivity|reflexivity|reflexivity|].
    by exists "world", "0/x99/z99.prbm".
  - apply (exhausted_candidates Rev000 offline (env_of ∅ None)
             (request_of "GET" "/maps/world/tiles/1/x7/z7.png")
             "/maps/world/tiles/1/x7/z7.png" "maps/world/tiles/1/x7/z7.png");
      [concrete_reach|reflexivity|reflexivity|reflexivity|].
    by exists "world", "1/x7/z7.png".
  - apply (exhausted_candidates Rev000 offline (env_of ∅ None)
             (request_of "HEAD" "/assets/logo.svg") "/assets/logo.svg" "assets/logo.svg");
      [concrete_reach|reflexivity|reflexivity|reflexivity| |reflexivity].
    intros map rest _ _ E. discriminate E.
Defined.

(** C3, as stated, fails beyond the store's key limit: a tile key of more
    than 1024 bytes is absent, with its [.gz] companion, yet the request is
    not answered 204: the first [get] throws and the handler with it. *)
Lemma over_long_tile_key_throws :
  (∃ map rest, map ≠ "" ∧ free_of "/" map = true
     ∧ "world/tiles/" +:+ letters 1024 = tile_key Rev001 map rest)
  ∧ objects (BUCKET (env_of ∅ None)) !! ("world/tiles/" +:+ letters 1024) = None
  ∧ objects (BUCKET (env_of ∅ None)) !! (("world/tiles/" +:+ letters 1024) +:+ ".gz")
    = None
  ∧ ∃ error,
      handler Rev001 (request_of "GET" ("/maps/world/tiles/" +:+ letters 1024))
        (env_of ∅ None) offline
      = ([BucketGet ("world/tiles/" +:+ letters 1024)], Throw error).
Proof.
  split; [by exists "world", (letters 1024)|].
  split; [reflexivity|]. split; [reflexivity|].
  eexists. vm_compute. reflexivity.
Qed.

(** ** Live paths *)

Lemma resolve_probes v b key :
  ∃ k keys, (resolve v b key).1 = k :: keys.
Proof.
  unfold resolve.
  destruct (gz_first v key), (get_reply b (key +:+ ".gz")) as [[?|]|?],
    (get_reply b key) as [[?|]|?], (endsWith key ".gz"), v; simpl; eauto.
Qed.

Lemma network_calls_gets keys : network_calls (BucketGet <$> keys) = [].
Proof.
  unfold network_calls. induction keys as [|k keys IH]; [done|].
  rewrite fmap_cons, filter_cons_False; [done|]. simpl. discriminate.
Qed.

(** C4 (amended): a live path requested while no live origin is configured
    causes no network call; it is resolved against the store like any other
    key, and is answered 404 (with the CORS header) when its candidates are
    absent and within the store's limit of 1024 bytes. *)
Theorem live_without_origin v w env request decoded key :
  reaches v w request decoded key → is_live decoded = true →
  configured (LIVE_SERVER_ORIGIN env) = None →
  handler v request env w = serve v request env key w
  ∧ network_calls (trace_of (handler v request env w)) = []
  ∧ (∃ k keys, trace_of (handler v request env w) = BucketGet <$> (k :: keys))
  ∧ (valid_key (key +:+ ".gz") = true →
     objects (BUCKET env) !! key = None →
     (endsWith key ".gz" = false → objects (BUCKET env) !! (key +:+ ".gz") = None) →
     ∃ r, result_of (handler v request env w) = Respond r
       ∧ status r = 404
       ∧ headers_get "Access-Control-Allow-Origin" (headers r) = Some "*").
Proof.
  intros Hr Hl Hc.
  assert (Hu : unproxied env decoded) by by left.
  assert (Hkey : normalizedKey v decoded = Some key) by apply Hr.
  split; [by apply (handler_serves _ _ _ _ decoded)|].
  rewrite (handler_resolve _ _ _ _ _ _ Hr Hu).
  destruct (resolve_probes v (BUCKET env) key) as (k & keys & Hp).
  destruct (resolve v (BUCKET env) key) as [ks ending] eqn:Hres.
  simpl in Hp. subst ks. unfold trace_of, result_of. cbn [fst snd].
  split; [apply network_calls_gets|]. split; [eauto|].
  intros Hv Hk Hgz. destruct (resolve_absent v _ _ Hv Hk Hgz) as [keys' Hres'].
  rewrite Hres in Hres'. injection Hres' as _ ->.
  eexists. split; [reflexivity|].
  apply absent_other. by apply (live_not_tile _ decoded).
Qed.

Lemma live_without_origin_witness :
  network_calls (trace_of (handler Rev001 (request_of "GET" "/maps/world/live/players.json")
                             (env_of ∅ None) offline)) = []
  ∧ ∃ r, result_of (handler Rev001 (request_of "GET" "/maps/world/live/players.json")
                      (env_of ∅ None) offline) = Respond r
      ∧ status r = 404
      ∧ headers_get "Access-Control-Allow-Origin" (headers r) = Some "*".
Proof.
  destruct (live_without_origin Rev001 offline (env_of ∅ None)
              (request_of "GET" "/maps/world/live/players.json")
              "/maps/world/live/players.json" "world/live/players.json")
    as (_ & Hn & _ & Ha); [concrete_reach|reflexivity|reflexivity|].
  split; [exact Hn|]. apply Ha; reflexivity.
Defined.

(** C4, as stated, fails: without a live origin the live path is looked up
    in the store, and served from it when the key is stored. *)
Lemma live_path_served_from_store :
  is_live "/maps/world/live/players.json" = true
  ∧ configured (LIVE_SERVER_ORIGIN
                  (env_of {["world/live/players.json" := stored "v1" "[]"]} None)) = None
  ∧ ∃ r, handler Rev001 (request_of "GET" "/maps/world/live/players.json")
           (env_of {["world/live/players.json" := stored "v1" "[]"]} None) offline
         = ([BucketGet "world/live/players.json"], Respond r)
      ∧ status r = 200.
Proof. split; [reflexivity|]. split; [reflexivity|]. eexists. split; reflexivity. Qed.

Lemma handler_proxies v w request env decoded live :
  reads request → (v = Rev001 → not_debug request) →
  decodeURIComponent w (pathname request) = Some decoded →
  is_live decoded = true → configured (LIVE_SERVER_ORIGIN env) = Some live →
  handler v request env w = proxy v request live (strip_leading_slash decoded) w.
Proof.
  intros Hm Hd Hp Hl Hc.
  destruct (reads_methods _ Hm) as [Ho Hr].
  unfold is_live in Hl. set (path := strip_leading_slash decoded) in *.
  destruct v; unfold handler, proxy.
  - unfold Part000.fetch. rewrite bind_decode, Hp, Ho, Hr. fold path.
    destruct (String.eqb path "" || String.eqb path "/") eqn:E.
    + by rewrite (root_not_live _ E) in Hl.
    + unfold Part000.isLivePath. by rewrite Hl, Hc.
  - destruct (not_debug_eqb _ (Hd eq_refl)) as [H1 H2].
    unfold Part001.fetch. rewrite H1, H2, Ho, Hr, bind_decode, Hp. fold path.
    rewrite Hc, Hl. unfold maps_segment_then in Hl.
    by destruct (startsWith path "maps/").
Qed.





(** ** Methods *)

(** C6 does not hold of the code: the 405 answer of both revisions carries
    no CORS header, whereas the 404 and 204 answers beside it do. *)
Theorem method_not_allowed_lacks_cors v w env request :
  method request ≠ "OPTIONS" → method request ≠ "GET" → method request ≠ "HEAD" →
  match v with
  | Rev000 => is_Some (decodeURIComponent w (pathname request))
  | Rev001 => not_debug request
  end →
  ∃ r, handler v request env w = ([], Respond r)
    ∧ status r = 405
    ∧ headers_get "Access-Control-Allow-Origin" (headers r) = None.
Proof.
  intros Ho Hg Hh Hx.
  apply String.eqb_neq in Ho, Hg, Hh.
  destruct v; unfold handler.
  - destruct Hx as [p Hp]. unfold Part000.fetch.
    rewrite bind_decode, Hp, Ho, Hg, Hh. eexists. split; [reflexivity|].
    split; [reflexivity|]. unfold textResponse. cbn [headers mkResponse].
    replace (headers_get "Content-Type" ∅) with (@None string) by done.
    header_lookup.
  - destruct (not_debug_eqb _ Hx) as [H1 H2]. unfold Part001.fetch.
    rewrite H1, H2, Ho, Hg, Hh. eexists. split; [reflexivity|].
    split; [reflexivity|]. unfold textResponse. cbn [headers mkResponse].
    replace (headers_get "Content-Type" ∅) with (@None string) by done.
    header_lookup.
Qed.

Lemma method_not_allowed_lacks_cors_witness :
  ∃ r, handler Rev001 (request_of "POST" "/maps/world/settings.json")
         (env_of ∅ None) offline = ([], Respond r)
    ∧ status r = 405
    ∧ headers_get "Access-Control-Allow-Origin" (headers r) = None.
Proof.
  apply (method_not_allowed_lacks_cors Rev001 offline (env_of ∅ None)
           (request_of "POST" "/maps/world/settings.json"));
    [discriminate..|split; discriminate].
Defined.

(** ** Preflight *)

(** C9 (amended): an OPTIONS request is answered with the fixed preflight
    response, before the method check and without any store or network
    call, unless it is addressed to a debug endpoint of part_001; part_000
    decodes the path first, so there the path has to decode. *)
Theorem preflight_short_circuit v w env request :
  method request = "OPTIONS" →
  match v with
  | Rev000 => is_Some (decodeURIComponent w (pathname request))
  | Rev001 => not_debug request
  end →
  handler v request env w = ([], Respond preflight)
  ∧ status preflight = 200 ∧ body preflight = BodyNull
  ∧ headers_get "Access-Control-Allow-Origin" (headers preflight) = Some "*"
  ∧ headers_get "Access-Control-Allow-Methods" (headers preflight)
    = Some "GET, HEAD, OPTIONS"
  ∧ headers_get "Access-Control-Allow-Headers" (headers preflight) = Some "*"
  ∧ headers_get "Access-Control-Max-Age" (headers preflight) = Some "86400".
Proof.
  intros Hm Hx. split.
  - destruct v; unfold handler.
    + destruct Hx as [p Hp]. unfold Part000.fetch. by rewrite bind_decode, Hp, Hm.
    + destruct (not_debug_eqb _ Hx) as [H1 H2]. unfold Part001.fetch.
      by rewrite H1, H2, Hm.
  - unfold preflight. cbn [status body headers mkResponse]. repeat split; header_lookup.
Qed.

Lemma preflight_short_circuit_witness :
  handler Rev001 (request_of "OPTIONS" "/anything")
    (env_of {["world/settings.json" := stored "v1" "{}"]} None) offline
  = ([], Respond preflight)
  ∧ handler Rev000 (request_of "OPTIONS" "/anything")
      (env_of {["world/settings.json" := stored "v1" "{}"]} None) offline
    = ([], Respond preflight).
Proof.
  split.
  - apply (preflight_short_circuit Rev001 offline
             (env_of {["world/settings.json" := stored "v1" "{}"]} None)
             (request_of "OPTIONS" "/anything")); [reflexivity|split; discriminate].
  - apply (preflight_short_circuit Rev000 offline
             (env_of {["world/settings.json" := stored "v1" "{}"]} None)
             (request_of "OPTIONS" "/anything")); [reflexivity|by eexists].
Defined.

(** C9, as stated, fails in part_001: the debug endpoints come before the
    preflight test, so [OPTIONS /debug] lists the bucket. *)
Lemma preflight_on_debug_lists_bucket :
  ∃ r, handler Rev001 (request_of "OPTIONS" "/debug")
         (env_of {["world/settings.json" := stored "v1" "{}"]} None) offline
       = ([BucketList {| prefix := None; limit_text := "50" |}], Respond r)
    ∧ body r = BodyJson (ReportListing false 1 [("world/settings.json", 2%Z)])
    ∧ headers_get "Access-Control-Allow-Methods" (headers r) = None
    ∧ store_accesses (trace_of (handler Rev001 (request_of "OPTIONS" "/debug")
         (env_of {["world/settings.json" := stored "v1" "{}"]} None) offline))
      = [BucketList {| prefix := None; limit_text := "50" |}].
Proof. eexists. repeat split; reflexivity. Qed.

(** ** The root *)

(** C8 (amended): part_000 rewrites an empty or root path to [index.html]
    and serves that key from the store; part_001 serves nothing outside
    [maps/] and answers the root 404 without consulting the store. *)
Theorem root_request w env request decoded :
  reads request →
  decodeURIComponent w (pathname request) = Some decoded →
  decoded = "" ∨ decoded = "/" →
  (∀ object,
     objects (BUCKET env) !! "index.html" = Some object → fresh request object →
     ∃ r, handler Rev000 request env w = ([BucketGet "index.html"], Respond r)
       ∧ status r = 200
       ∧ body r = BodyStream (object_body object)
       ∧ headers_get "Content-Type" (headers r) = Some "text/html; charset=utf-8")
  ∧ (not_debug request →
     ∃ r, handler Rev001 request env w = ([], Respond r)
       ∧ status r = 404
       ∧ headers_get "Access-Control-Allow-Origin" (headers r) = Some "*").
Proof.
  intros Hm Hp Hd. split.
  - intros object Ho Hf.
    assert (Hr : reaches Rev000 w request decoded "index.html").
    { split; [done|]. split; [done|]. split; [done|]. by destruct Hd as [-> | ->]. }
    assert (Hu : unproxied env decoded) by (right; by destruct Hd as [-> | ->]).
    rewrite (handler_resolve _ _ _ _ _ _ Hr Hu). unfold resolve.
    change (gz_first Rev000 "index.html") with false. cbv iota.
    rewrite (get_reply_stored _ _ _ Ho).
    eexists. split; [reflexivity|].
    destruct (found_fresh Rev000 object (mime Rev000 "index.html") false request Hf)
      as [Hs Hb].
    destruct (found_headers_get Rev000 object (mime Rev000 "index.html") false request)
      as (Ht & _).
    by repeat split.
  - intros Hn. destruct (reads_methods _ Hm) as [Ho Hr].
    destruct (not_debug_eqb _ Hn) as [H1 H2].
    unfold handler, Part001.fetch. rewrite H1, H2, Ho, Hr, bind_decode, Hp.
    eexists. by destruct Hd as [-> | ->].
Qed.

Lemma root_request_witness :
  (∃ r, handler Rev000 (request_of "GET" "/")
          (env_of {["index.html" := stored "v1" "<!doctype html>"]} None) offline
        = ([BucketGet "index.html"], Respond r)
     ∧ status r = 200
     ∧ body r = BodyStream "<!doctype html>"
     ∧ headers_get "Content-Type" (headers r) = Some "text/html; charset=utf-8")
  ∧ (∃ r, handler Rev001 (request_of "GET" "/")
            (env_of {["index.html" := stored "v1" "<!doctype html>"]} None) offline
          = ([], Respond r)
       ∧ status r = 404
       ∧ headers_get "Access-Control-Allow-Origin" (headers r) = Some "*").
Proof.
  destruct (root_request offline
              (env_of {["index.html" := stored "v1" "<!doctype html>"]} None)
              (request_of "GET" "/") "/"
              ltac:(by left) eq_refl ltac:(by right)) as [H000 H001].
  split.
  - exact (H000 (stored "v1" "<!doctype html>") eq_refl eq_refl).
  - apply H001. split; discriminate.
Defined.

(** C8, as stated, fails in part_001: the root is answered 404 although
    [index.html] is stored. *)
Lemma root_not_served_001 :
  objects (BUCKET (env_of {["index.html" := stored "v1" "<!doctype html>"]} None))
    !! "index.html" = Some (stored "v1" "<!doctype html>")
  ∧ ∃ r, handler Rev001 (request_of "GET" "/")
           (env_of {["index.html" := stored "v1" "<!doctype html>"]} None) offline
         = ([], Respond r)
      ∧ status r = 404.
Proof. split; [reflexivity|]. eexists. split; reflexivity. Qed.

(** ** Requests for a [.gz] key *)

Lemma gz_key_not_first v key : endsWith key ".gz" = true → gz_first v key = false.
Proof.
  intros H. destruct (gz_first v key) eqn:E; [|done].
  by rewrite (gz_first_not_gz _ _ E) in H.
Qed.

(** C10: a request whose key already ends in [.gz] and is stored costs the
    single probe of that key and is answered 200 with the stored bytes and
    no [Content-Encoding]; part_001 types a [.json.gz] key as JSON. *)
Theorem gz_key_served_verbatim v w env request decoded key object :
  reaches v w request decoded key → unproxied env decoded →
  endsWith key ".gz" = true →
  objects (BUCKET env) !! key = Some object →
  fresh request object →
  ∃ r, handler v request env w = ([BucketGet key], Respond r)
    ∧ status r = 200
    ∧ body r = BodyStream (object_body object)
    ∧ headers_get "Content-Encoding" (headers r) = None
    ∧ headers_get "Content-Type" (headers r) = Some (mime v key)
    ∧ (v = Rev001 → endsWith key ".json.gz" = true → mime v key = "application/json")
    ∧ (v = Rev000 → mime v key = "application/octet-stream").
Proof.
  intros Hr Hu Hgz Hk Hf.
  rewrite (handler_resolve _ _ _ _ _ _ Hr Hu). unfold resolve.
  rewrite (gz_key_not_first _ _ Hgz), (get_reply_stored _ _ _ Hk).
  eexists. split; [reflexivity|].
  destruct (found_fresh v object (mime v key) false request Hf) as [Hs Hb].
  destruct (found_headers_get v object (mime v key) false request) as (Ht & He & _).
  repeat split; try done.
  - intros -> Hj. unfold mime, Part001.getMimeType. by_suffix Hj.
  - intros ->. unfold mime. by rewrite (mime000_of_ext key "gz").
Qed.

(** Whatever the store holds, a key that ends in [.gz] is probed once. *)
Lemma gz_key_single_probe v w env request decoded key :
  reaches v w request decoded key → unproxied env decoded →
  endsWith key ".gz" = true →
  trace_of (handler v request env w) = [BucketGet key].
Proof.
  intros Hr Hu Hgz.
  rewrite (handler_resolve _ _ _ _ _ _ Hr Hu). unfold resolve.
  rewrite (gz_key_not_first _ _ Hgz), Hgz.
  by destruct (get_reply (BUCKET env) key) as [[?|]|?].
Qed.

Lemma gz_key_served_verbatim_witness :
  ∃ r, handler Rev001 (request_of "GET" "/maps/world/textures.json.gz")
         (env_of {["world/textures.json.gz" := stored "v1" "gzip bytes"]} None) offline
       = ([BucketGet "world/textures.json.gz"], Respond r)
    ∧ status r = 200
    ∧ body r = BodyStream "gzip bytes"
    ∧ headers_get "Content-Encoding" (headers r) = None
    ∧ headers_get "Content-Type" (headers r) = Some "application/json".
Proof.
  destruct (gz_key_served_verbatim Rev001 offline
              (env_of {["world/textures.json.gz" := stored "v1" "gzip bytes"]} None)
              (request_of "GET" "/maps/world/textures.json.gz")
              "/maps/world/textures.json.gz" "world/textures.json.gz"
              (stored "v1" "gzip bytes"))
    as (r & Hrun & Hs & Hb & He & Ht & Hj & _);
    [concrete_reach|by left|reflexivity..|].
  exists r. rewrite Ht, (Hj eq_refl eq_refl). auto.
Defined.

(** ** Conditional requests *)

Lemma reaches_without_validator v w request decoded key :
  reaches v w request decoded key → reaches v w (without_validator request) decoded key.
Proof. done. Qed.

Lemma absent_not_ok v key : status (absent_response v key) ≠ 200.
Proof.
  destruct v; simpl.
  - by destruct (Part000.isTilePath key).
  - by destruct (segment_then "tiles" key).
Qed.

Lemma validator_hits h etag :
  headers_get "If-None-Match" h = Some etag → etag ≠ "" →
  if_none_match_hits h etag = true.
Proof.
  intros Hh Hne. unfold if_none_match_hits. rewrite Hh.
  apply String.eqb_neq in Hne. by rewrite Hne, String.eqb_refl.
Qed.

Lemma without_validator_fresh request o : fresh (without_validator request) o.
Proof.
  unfold fresh, if_none_match_hits, headers_get, without_validator. cbn [req_headers].
  by rewrite lookup_delete_eq.
Qed.

Lemma gz_first_only_set v key : gz_first v key = true → gz_only_set v key.
Proof.
  unfold gz_only_set. destruct v; simpl.
  - unfold Part000.shouldTryGz. simpl.
    destruct (endsWith key ".gz"); [done|].
    destruct (endsWith key ".prbm"); [by left|].
    destruct (endsWith key "textures.json"); [by right; left|done].
  - destruct (endsWith key ".prbm"); [by left|].
    destruct (endsWith key "textures.json"); [by right; left|].
    destruct (endsWith key "settings.json"); [by right; right|done].
Qed.

Lemma resolve_answers v b key gz o :
  answers v b key gz o → ∃ keys, resolve v b key = (keys, Hit o gz).
Proof.
  unfold answers, resolve. destruct gz.
  - intros [Hgz Hc]. rewrite (get_reply_stored _ _ _ Hgz).
    destruct Hc as [Hs | [Hn Hk]].
    + rewrite (gz_only_set_first _ _ Hs). eauto.
    + rewrite (get_reply_absent _ _
                 (valid_key_shorter _ _ (objects_valid _ _ _ Hgz)) Hk), Hn.
      destruct (gz_first v key); eauto.
  - intros [Hk Hc]. rewrite (get_reply_stored _ _ _ Hk).
    destruct (gz_first v key) eqn:Hf; [|eauto].
    destruct Hc as [Hs | [Hv Hgz]].
    + by destruct Hs; apply gz_first_only_set.
    + rewrite (get_reply_absent _ _ Hv Hgz). eauto.
Qed.

(** C7: a request whose [If-None-Match] equals the ETag of the stored object
    that answers it, compressed or plain, is answered 304 with no body and
    the headers of the 200 response the same request gets without its
    validator ([ETag], [Content-Type], [Cache-Control], the CORS header, and
    [Content-Encoding: gzip] exactly for the compressed candidate), after
    the same probes. *)
Theorem conditional_get v w env request decoded key gzipped object :
  reaches v w request decoded key → unproxied env decoded →
  answers v (BUCKET env) key gzipped object →
  headers_get "If-None-Match" (req_headers request) = Some (httpEtag object) →
  httpEtag object ≠ "" →
  ∃ r, result_of (handler v request env w) = Respond r
    ∧ status r = 304
    ∧ body r = BodyNull
    ∧ headers_get "ETag" (headers r) = Some (httpEtag object)
    ∧ headers_get "Content-Type" (headers r) = Some (mime v key)
    ∧ headers_get "Cache-Control" (headers r) = Some "public, max-age=86400"
    ∧ headers_get "Access-Control-Allow-Origin" (headers r) = Some "*"
    ∧ headers_get "Content-Encoding" (headers r)
      = (if gzipped then Some "gzip" else None)
    ∧ (∃ r200,
         result_of (handler v (without_validator request) env w) = Respond r200
         ∧ status r200 = 200
         ∧ body r200 = BodyStream (object_body object)
         ∧ headers r = headers r200)
    ∧ trace_of (handler v request env w)
      = trace_of (handler v (without_validator request) env w).
Proof.
  intros Hr Hu Ha Hv Hne.
  destruct (resolve_answers _ _ _ _ _ Ha) as [keys Hres].
  rewrite (handler_resolve _ _ _ _ _ _ (reaches_without_validator _ _ _ _ _ Hr) Hu).
  rewrite (handler_resolve _ _ _ _ _ _ Hr Hu), Hres.
  unfold result_of, trace_of, settled; cbn [fst snd].
  destruct (found_validated v object (mime v key) gzipped request
              (validator_hits _ _ Hv Hne)) as [Hst Hb].
  destruct (found_headers_get v object (mime v key) gzipped request)
    as (Ht & He & Hetag & Hcc & Hcors).
  destruct (found_fresh v object (mime v key) gzipped (without_validator request))
    as [Hst' Hb']; [apply without_validator_fresh|].
  eexists. split; [reflexivity|].
  repeat split; try done.
  eexists. split; [reflexivity|].
  repeat split; [done..|apply found_headers_indep].
Qed.

Lemma conditional_get_witness :
  (∃ r, result_of (handler Rev001
                     {| method := "GET"; pathname := "/maps/world/tiles/1/x0/z0.png";
                        searchParams := ∅;
                        req_headers := headers_of [("If-None-Match", "v2")] |}
                     (env_of {["world/tiles/1/x0/z0.png" := stored "v2" "png bytes"]} None)
                     offline) = Respond r
     ∧ status r = 304 ∧ body r = BodyNull
     ∧ headers_get "ETag" (headers r) = Some "v2"
     ∧ headers_get "Content-Type" (headers r) = Some "image/png"
     ∧ headers_get "Content-Encoding" (headers r) = None)
  ∧ (∃ r, result_of (handler Rev001
                       {| method := "GET"; pathname := "/maps/world/textures.json";
                          searchParams := ∅;
                          req_headers := headers_of [("If-None-Match", "v1")] |}
                       (env_of {["world/textures.json.gz" := stored "v1" "gzip bytes"]} None)
                       offline) = Respond r
       ∧ status r = 304 ∧ body r = BodyNull
       ∧ headers_get "ETag" (headers r) = Some "v1"
       ∧ headers_get "Content-Encoding" (headers r) = Some "gzip")
  ∧ (∃ r, result_of (handler Rev000
                       {| method := "GET"; pathname := "/maps/world/tiles/1/x0/z0.png";
                          searchParams := ∅;
                          req_headers := headers_of [("If-None-Match", "v2")] |}
                       (env_of {["maps/world/tiles/1/x0/z0.png" := stored "v2" "png bytes"]}
                          None)
                       offline) = Respond r
       ∧ status r = 304 ∧ body r = BodyNull
       ∧ headers_get "ETag" (headers r) = Some "v2"
       ∧ headers_get "Content-Encoding" (headers r) = None).
Proof.
  split; [|split].
  - destruct (conditional_get Rev001 offline
                (env_of {["world/tiles/1/x0/z0.png" := stored "v2" "png bytes"]} None)
                {| method := "GET"; pathname := "/maps/world/tiles/1/x0/z0.png";
                   searchParams := ∅;
                   req_headers := headers_of [("If-None-Match", "v2")] |}
                "/maps/world/tiles/1/x0/z0.png" "world/tiles/1/x0/z0.png"
                false (stored "v2" "png bytes"))
      as (r & Hrun & Hs & Hb & Hetag & Ht & _ & _ & He & _);
      [concrete_reach|by left| |reflexivity|discriminate|].
    { split; [reflexivity|]. right. split; reflexivity. }
    exists r. rewrite Ht. auto 10.
  - destruct (conditional_get Rev001 offline
                (env_of {["world/textures.json.gz" := stored "v1" "gzip bytes"]} None)
                {| method := "GET"; pathname := "/maps/world/textures.json";
                   searchParams := ∅;
                   req_headers := headers_of [("If-None-Match", "v1")] |}
                "/maps/world/textures.json" "world/textures.json"
                true (stored "v1" "gzip bytes"))
      as (r & Hrun & Hs & Hb & Hetag & _ & _ & _ & He & _);
      [concrete_reach|by left| |reflexivity|discriminate|].
    { split; [reflexivity|]. left. right. left. reflexivity. }
    exists r. auto 10.
  - destruct (conditional_get Rev000 offline
                (env_of {["maps/world/tiles/1/x0/z0.png" := stored "v2" "png bytes"]} None)
                {| method := "GET"; pathname := "/maps/world/tiles/1/x0/z0.png";
                   searchParams := ∅;
                   req_headers := headers_of [("If-None-Match", "v2")] |}
                "/maps/world/tiles/1/x0/z0.png" "maps/world/tiles/1/x0/z0.png"
                false (stored "v2" "png bytes"))
      as (r & Hrun & Hs & Hb & Hetag & _ & _ & _ & He & _);
      [concrete_reach|by left| |reflexivity|discriminate|].
    { split; [reflexivity|]. right. split; reflexivity. }
    exists r. auto 10.
Defined.

(** * Further properties of the handlers *)

(** ** Requests turned away before the store *)

(** X1: part_001 answers every read request outside [maps/] with 404, a
    null body and the CORS header, and consults neither store nor network. *)
Theorem outside_maps_not_found w env request decoded :
  reads request → not_debug request →
  decodeURIComponent w (pathname request) = Some decoded →
  startsWith (strip_leading_slash decoded) "maps/" = false →
  ∃ r, handler Rev001 request env w = ([], Respond r)
    ∧ status r = 404 ∧ body r = BodyNull
    ∧ headers_get "Access-Control-Allow-Origin" (headers r) = Some "*".
Proof.
  intros Hm Hn Hp Hs.
  destruct (reads_methods _ Hm) as [Ho Hr].
  destruct (not_debug_eqb _ Hn) as [H1 H2].
  unfold handler, Part001.fetch. rewrite H1, H2, Ho, Hr, bind_decode, Hp, Hs.
  eexists. split; [reflexivity|]. by repeat split.
Qed.

Lemma outside_maps_not_found_witness :
  (∃ r, handler Rev001 (request_of "GET" "/index.html")
          (env_of {["index.html" := stored "v1" "<!doctype html>"]} None) offline
        = ([], Respond r)
     ∧ status r = 404 ∧ body r = BodyNull
     ∧ headers_get "Access-Control-Allow-Origin" (headers r) = Some "*")
  ∧ (∃ r, handler Rev001 (request_of "HEAD" "//maps/world/settings.json")
            (env_of {["world/settings.json" := stored "v1" "{}"]} None) offline
          = ([], Respond r)
       ∧ status r = 404 ∧ body r = BodyNull
       ∧ headers_get "Access-Control-Allow-Origin" (headers r) = Some "*").
Proof.
  split.
  - apply (outside_maps_not_found offline
             (env_of {["index.html" := stored "v1" "<!doctype html>"]} None)
             (request_of "GET" "/index.html") "/index.html");
      [by left|split; discriminate|reflexivity|reflexivity].
  - apply (outside_maps_not_found offline
             (env_of {["world/settings.json" := stored "v1" "{}"]} None)
             (request_of "HEAD" "//maps/world/settings.json")
             "//maps/world/settings.json");
      [by right|split; discriminate|reflexivity|reflexivity].
Defined.

(** X2: a path that [decodeURIComponent] rejects makes the handler throw,
    before any store or network call: in part_000 for every method, in
    part_001 for the read requests that are not debug requests. *)
Theorem undecodable_path_throws v w env request :
  decodeURIComponent w (pathname request) = None →
  match v with
  | Rev000 => True
  | Rev001 => reads request ∧ not_debug request
  end →
  ∃ error, handler v request env w = ([], Throw error).
Proof.
  intros Hp Hx. destruct v; unfold handler.
  - unfold Part000.fetch. rewrite bind_decode, Hp. by eexists.
  - destruct Hx as [Hm Hn].
    destruct (reads_methods _ Hm) as [Ho Hr].
    destruct (not_debug_eqb _ Hn) as [H1 H2].
    unfold Part001.fetch. rewrite H1, H2, Ho, Hr, bind_decode, Hp. by eexists.
Qed.

Lemma undecodable_path_throws_witness :
  (∃ error, handler Rev000 (request_of "OPTIONS" "/maps/%zz")
              (env_of ∅ None) offline = ([], Throw error))
  ∧ (∃ error, handler Rev001 (request_of "GET" "/maps/%zz")
                (env_of ∅ None) offline = ([], Throw error)).
Proof.
  split.
  - apply (undecodable_path_throws Rev000 offline (env_of ∅ None)
             (request_of "OPTIONS" "/maps/%zz")); [reflexivity|exact I].
  - apply (undecodable_path_throws Rev001 offline (env_of ∅ None)
             (request_of "GET" "/maps/%zz"));
      [reflexivity|split; [by left|split; discriminate]].
Defined.

(** ** The order of the candidates *)

(** X3: for a key outside the compressed-only set that does not end in
    [.gz], the plain key is probed first; when only the [.gz] object is
    stored it is served with [Content-Encoding: gzip] and the content type of
    the plain key. *)
Theorem catch_all_gz_fallback v w env request decoded key object :
  reaches v w request decoded key → unproxied env decoded →
  gz_first v key = false → endsWith key ".gz" = false →
  objects (BUCKET env) !! key = None →
  objects (BUCKET env) !! (key +:+ ".gz") = Some object →
  fresh request object →
  ∃ r, handler v request env w
       = ([BucketGet key; BucketGet (key +:+ ".gz")], Respond r)
    ∧ status r = 200
    ∧ body r = BodyStream (object_body object)
    ∧ headers_get "Content-Encoding" (headers r) = Some "gzip"
    ∧ headers_get "Content-Type" (headers r) = Some (mime v key).
Proof.
  intros Hr Hu Hf Hn Hk Hgz Hfr.
  rewrite (handler_resolve _ _ _ _ _ _ Hr Hu). unfold resolve.
  rewrite Hf, (get_reply_stored _ _ _ Hgz), Hn,
    (get_reply_absent _ _ (valid_key_shorter _ _ (objects_valid _ _ _ Hgz)) Hk).
  eexists. split; [reflexivity|].
  destruct (found_fresh v object (mime v key) true request Hfr) as [Hs Hb].
  destruct (found_headers_get v object (mime v key) true request) as (Ht & He & _).
  by repeat split.
Qed.

Lemma catch_all_gz_fallback_witness :
  (∃ r, handler Rev001 (request_of "GET" "/maps/world/live/markers.json")
          (env_of {["world/live/markers.json.gz" := stored "v1" "gzip bytes"]} None)
          offline
        = ([BucketGet "world/live/markers.json";
            BucketGet "world/live/markers.json.gz"], Respond r)
     ∧ status r = 200 ∧ body r = BodyStream "gzip bytes"
     ∧ headers_get "Content-Encoding" (headers r) = Some "gzip"
     ∧ headers_get "Content-Type" (headers r) = Some "application/json")
  ∧ (∃ r, handler Rev000 (request_of "GET" "/")
            (env_of {["index.html.gz" := stored "v1" "gzip bytes"]} None) offline
          = ([BucketGet "index.html"; BucketGet "index.html.gz"], Respond r)
       ∧ status r = 200 ∧ body r = BodyStream "gzip bytes"
       ∧ headers_get "Content-Encoding" (headers r) = Some "gzip"
       ∧ headers_get "Content-Type" (headers r) = Some "text/html; charset=utf-8").
Proof.
  split.
  - apply (catch_all_gz_fallback Rev001 offline
             (env_of {["world/live/markers.json.gz" := stored "v1" "gzip bytes"]} None)
             (request_of "GET" "/maps/world/live/markers.json")
             "/maps/world/live/markers.json" "world/live/markers.json"
             (stored "v1" "gzip bytes"));
      [concrete_reach|by left|reflexivity..].
  - apply (catch_all_gz_fallback Rev000 offline
             (env_of {["index.html.gz" := stored "v1" "gzip bytes"]} None)
             (request_of "GET" "/") "/" "index.html" (stored "v1" "gzip bytes"));
      [concrete_reach|by left|reflexivity..].
Defined.

(** X4: when both the plain and the [.gz] object are stored, one probe is
    made and the first candidate wins: the [.gz] object for a key of the
    revision's compressed-only set, the plain object for any other key. *)
Theorem both_stored_first_candidate_wins v w env request decoded key plain gz :
  reaches v w request decoded key → unproxied env decoded →
  objects (BUCKET env) !! key = Some plain →
  objects (BUCKET env) !! (key +:+ ".gz") = Some gz →
  fresh request plain → fresh request gz →
  ∃ r, handler v request env w
       = ([BucketGet (if gz_first v key then key +:+ ".gz" else key)], Respond r)
    ∧ status r = 200
    ∧ body r = BodyStream (object_body (if gz_first v key then gz else plain))
    ∧ headers_get "Content-Encoding" (headers r)
      = (if gz_first v key then Some "gzip" else None).
Proof.
  intros Hr Hu Hk Hgz Hfp Hfg.
  rewrite (handler_resolve _ _ _ _ _ _ Hr Hu). unfold resolve.
  rewrite (get_reply_stored _ _ _ Hk), (get_reply_stored _ _ _ Hgz).
  destruct (gz_first v key).
  - eexists. split; [reflexivity|].
    destruct (found_fresh v gz (mime v key) true request Hfg) as [Hs Hb].
    destruct (found_headers_get v gz (mime v key) true request) as (_ & He & _).
    by repeat split.
  - eexists. split; [reflexivity|].
    destruct (found_fresh v plain (mime v key) false request Hfp) as [Hs Hb].
    destruct (found_headers_get v plain (mime v key) false request) as (_ & He & _).
    by repeat split.
Qed.

Lemma both_stored_first_candidate_wins_witness :
  (∃ r, handler Rev001 (request_of "GET" "/maps/world/settings.json")
          (env_of {["world/settings.json" := stored "p" "plain";
                    "world/settings.json.gz" := stored "z" "zipped"]} None) offline
        = ([BucketGet "world/settings.json.gz"], Respond r)
     ∧ status r = 200 ∧ body r = BodyStream "zipped"
     ∧ headers_get "Content-Encoding" (headers r) = Some "gzip")
  ∧ (∃ r, handler Rev000 (request_of "GET" "/maps/world/settings.json")
            (env_of {["maps/world/settings.json" := stored "p" "plain";
                      "maps/world/settings.json.gz" := stored "z" "zipped"]} None) offline
          = ([BucketGet "maps/world/settings.json"], Respond r)
       ∧ status r = 200 ∧ body r = BodyStream "plain"
       ∧ headers_get "Content-Encoding" (headers r) = None).
Proof.
  split.
  - exact (both_stored_first_candidate_wins Rev001 offline
             (env_of {["world/settings.json" := stored "p" "plain";
                       "world/settings.json.gz" := stored "z" "zipped"]} None)
             (request_of "GET" "/maps/world/settings.json")
             "/maps/world/settings.json" "world/settings.json"
             (stored "p" "plain") (stored "z" "zipped")
             ltac:(concrete_reach) ltac:(by left) eq_refl eq_refl eq_refl eq_refl).
  - exact (both_stored_first_candidate_wins Rev000 offline
             (env_of {["maps/world/settings.json" := stored "p" "plain";
                       "maps/world/settings.json.gz" := stored "z" "zipped"]} None)
             (request_of "GET" "/maps/world/settings.json")
             "/maps/world/settings.json" "maps/world/settings.json"
             (stored "p" "plain") (stored "z" "zipped")
             ltac:(concrete_reach) ltac:(by left) eq_refl eq_refl eq_refl eq_refl).
Defined.

(** ** What every answer from the store has *)

Lemma absent_cors v key :
  headers_get "Access-Control-Allow-Origin" (headers (absent_response v key)) = Some "*"
  ∧ (status (absent_response v key) = 204 ∨ status (absent_response v key) = 404).
Proof.
  destruct (is_tile v key) eqn:E.
  - destruct (absent_tile v key E) as (Hs & _ & Ha & _). auto.
  - destruct (absent_other v key E) as (Hs & Ha). auto.
Qed.

Lemma found_status v o ct gz request :
  status (found_response v o ct gz request) = 200
  ∨ status (found_response v o ct gz request) = 304.
Proof.
  destruct (if_none_match_hits (req_headers request) (httpEtag o)) eqn:E.
  - right. by apply found_validated.
  - left. by apply found_fresh.
Qed.

Lemma resolve_within_limit v b key keys error :
  valid_key (key +:+ ".gz") = true → resolve v b key ≠ (keys, Refused error).
Proof.
  intros Hv. unfold resolve, get_reply.
  rewrite Hv, (valid_key_shorter _ _ Hv).
  destruct (gz_first v key), (objects b !! (key +:+ ".gz")), (objects b !! key),
    (endsWith key ".gz"), v; discriminate.
Qed.

(** X5: every request that reaches the store with a key within the store's
    limit of 1024 bytes, [.gz] suffix included, is answered, with status
    200, 304, 204 or 404, always with the CORS header, and without any
    network call. *)
Theorem store_answers_carry_cors v w env request decoded key :
  reaches v w request decoded key → unproxied env decoded →
  valid_key (key +:+ ".gz") = true →
  ∃ r, result_of (handler v request env w) = Respond r
    ∧ (status r = 200 ∨ status r = 304 ∨ status r = 204 ∨ status r = 404)
    ∧ headers_get "Access-Control-Allow-Origin" (headers r) = Some "*"
    ∧ network_calls (trace_of (handler v request env w)) = [].
Proof.
  intros Hr Hu Hv. rewrite (handler_resolve _ _ _ _ _ _ Hr Hu).
  destruct (resolve v (BUCKET env) key) as [keys [o gz| |error]] eqn:Hres;
    unfold result_of, trace_of; cbn [fst snd];
    [| |by destruct (resolve_within_limit _ _ _ _ _ Hv Hres)];
    (eexists; split; [reflexivity|]).
  - destruct (found_headers_get v o (mime v key) gz request) as (_ & _ & _ & _ & Ha).
    destruct (found_status v o (mime v key) gz request); auto using network_calls_gets.
  - destruct (absent_cors v key) as [Ha [Hs|Hs]]; auto 6 using network_calls_gets.
Qed.

Lemma store_answers_carry_cors_witness :
  ∃ r, result_of (handler Rev000 (request_of "GET" "/assets/logo.svg")
                    (env_of ∅ (Some "http://mc.example:8100")) offline) = Respond r
    ∧ (status r = 200 ∨ status r = 304 ∨ status r = 204 ∨ status r = 404)
    ∧ headers_get "Access-Control-Allow-Origin" (headers r) = Some "*"
    ∧ network_calls (trace_of (handler Rev000 (request_of "GET" "/assets/logo.svg")
                                 (env_of ∅ (Some "http://mc.example:8100")) offline)) = [].
Proof.
  apply (store_answers_carry_cors Rev000 offline (env_of ∅ (Some "http://mc.example:8100"))
           (request_of "GET" "/assets/logo.svg") "/assets/logo.svg" "assets/logo.svg");
    [concrete_reach|by right|reflexivity].
Defined.

(** X6: the store is asked only for the key and for the key with [.gz]
    appended, at least once and at most three times; part_000 asks at most
    twice. *)
Theorem probes_stay_on_the_key v w env request decoded key :
  reaches v w request decoded key → unproxied env decoded →
  Forall (fun e => e = BucketGet key ∨ e = BucketGet (key +:+ ".gz"))
    (trace_of (handler v request env w))
  ∧ 1 ≤ length (trace_of (handler v request env w)) ≤ 3
  ∧ (v = Rev000 → length (trace_of (handler v request env w)) ≤ 2).
Proof.
  intros Hr Hu. rewrite (handler_resolve _ _ _ _ _ _ Hr Hu). unfold resolve.
  destruct (gz_first v key), (get_reply (BUCKET env) (key +:+ ".gz")) as [[?|]|?],
    (get_reply (BUCKET env) key) as [[?|]|?], (endsWith key ".gz"), v;
    unfold trace_of; cbn [fst fmap list_fmap length];
    (split;
       [repeat match goal with
               | |- Forall _ _ => constructor
               | |- _ ∨ _ => first [by left | by right]
               end
       |split; [lia|intros; first [lia|discriminate]]]).
Qed.

Lemma probes_stay_on_the_key_witness :
  Forall (fun e => e = BucketGet "world/tiles/0/x99/z99.prbm"
                   ∨ e = BucketGet ("world/tiles/0/x99/z99.prbm" +:+ ".gz"))
    (trace_of (handler Rev001 (request_of "GET" "/maps/world/tiles/0/x99/z99.prbm")
                 (env_of ∅ None) offline))
  ∧ 1 ≤ length (trace_of (handler Rev001
                            (request_of "GET" "/maps/world/tiles/0/x99/z99.prbm")
                            (env_of ∅ None) offline)) ≤ 3.
Proof.
  destruct (probes_stay_on_the_key Rev001 offline (env_of ∅ None)
              (request_of "GET" "/maps/world/tiles/0/x99/z99.prbm")
              "/maps/world/tiles/0/x99/z99.prbm" "world/tiles/0/x99/z99.prbm")
    as (Hf & Hl & _); [concrete_reach|by left|].
  by split.
Defined.

Lemma get_reply_found b key o :
  get_reply b key = Resolved (Some o) → objects b !! key = Some o.
Proof. unfold get_reply. destruct (valid_key key); congruence. Qed.

Lemma resolve_sound v b key keys o gz :
  resolve v b key = (keys, Hit o gz) →
  objects b !! (if gz then key +:+ ".gz" else key) = Some o
  ∧ (if gz then key +:+ ".gz" else key) ∈ keys.
Proof.
  unfold resolve.
  destruct (gz_first v key),
    (get_reply b (key +:+ ".gz")) as [[?|]|?] eqn:Egz,
    (get_reply b key) as [[?|]|?] eqn:Ek, (endsWith key ".gz"), v;
    intros [= <- <- <-] || intros [=];
    (split; [by apply get_reply_found|set_solver]).
Qed.

(** X7: a 200 or 304 answer always stems from an object stored under the
    key or under the key with [.gz] appended, which was probed: it carries
    that object's ETag and a one-day [Cache-Control], a 200 carries its
    bytes, and [Content-Encoding: gzip] is present exactly when the object is
    the [.gz] one. *)
Theorem served_object_is_stored v w env request decoded key r :
  reaches v w request decoded key → unproxied env decoded →
  result_of (handler v request env w) = Respond r →
  status r = 200 ∨ status r = 304 →
  ∃ (gz : bool) o,
    objects (BUCKET env) !! (if gz then key +:+ ".gz" else key) = Some o
    ∧ BucketGet (if gz then key +:+ ".gz" else key) ∈ trace_of (handler v request env w)
    ∧ headers_get "ETag" (headers r) = Some (httpEtag o)
    ∧ headers_get "Cache-Control" (headers r) = Some "public, max-age=86400"
    ∧ headers_get "Content-Encoding" (headers r) = (if gz then Some "gzip" else None)
    ∧ (status r = 200 → body r = BodyStream (object_body o))
    ∧ (status r = 304 → body r = BodyNull).
Proof.
  intros Hr Hu. rewrite (handler_resolve _ _ _ _ _ _ Hr Hu).
  destruct (resolve v (BUCKET env) key) as [keys [o gz| |error]] eqn:Hres;
    unfold result_of, trace_of; cbn [fst snd]; [| |done]; intros [= <-] Hs.
  - destruct (resolve_sound _ _ _ _ _ _ Hres) as [Ho Hin].
    exists gz, o.
    destruct (found_headers_get v o (mime v key) gz request) as (_ & He & Ht & Hc & _).
    split; [done|]. split; [by apply list_elem_of_fmap_2|].
    repeat split; try done.
    + destruct (if_none_match_hits (req_headers request) (httpEtag o)) eqn:E.
      * destruct (found_validated v o (mime v key) gz request E) as [H1 _].
        intros H2. rewrite H1 in H2. discriminate.
      * intros _. by apply found_fresh.
    + destruct (if_none_match_hits (req_headers request) (httpEtag o)) eqn:E.
      * intros _. by apply found_validated.
      * destruct (found_fresh v o (mime v key) gz request E) as [H1 _].
        intros H2. rewrite H1 in H2. discriminate.
  - destruct (absent_cors v key) as [_ [H|H]]; destruct Hs as [Hs|Hs];
      rewrite H in Hs; discriminate.
Qed.

Lemma served_object_is_stored_witness :
  ∃ (gz : bool) o,
    objects (BUCKET (env_of {["world/tiles/0/x0/z0.prbm.gz" := stored "v1" "gzip bytes"]}
                       None))
      !! (if gz then "world/tiles/0/x0/z0.prbm" +:+ ".gz" else "world/tiles/0/x0/z0.prbm")
    = Some o
    ∧ httpEtag o = "v1" ∧ object_body o = "gzip bytes" ∧ gz = true.
Proof.
  destruct (served_object_is_stored Rev001 offline
              (env_of {["world/tiles/0/x0/z0.prbm.gz" := stored "v1" "gzip bytes"]} None)
              (request_of "GET" "/maps/world/tiles/0/x0/z0.prbm")
              "/maps/world/tiles/0/x0/z0.prbm" "world/tiles/0/x0/z0.prbm"
              (Part001.compressedR2Response (stored "v1" "gzip bytes")
                 "application/octet-stream"
                 (request_of "GET" "/maps/world/tiles/0/x0/z0.prbm")))
    as (gz & o & Ho & _ & He & _ & Hc & Hb & _);
    [concrete_reach|by left|reflexivity|by left|].
  exists gz, o. split; [exact Ho|].
  destruct gz; [|discriminate Hc].
  split; [by injection He|]. split; [|done].
  by injection (Hb eq_refl).
Defined.

(** X8: a tile request is never handed to the live origin, even when one
    is configured: it makes no network call. *)
Theorem tile_never_proxied v w env request decoded key :
  reaches v w request decoded key → is_tile v key = true →
  handler v request env w = serve v request env key w
  ∧ network_calls (trace_of (handler v request env w)) = [].
Proof.
  intros Hr Ht.
  assert (Hu : unproxied env decoded).
  { right. apply (tile_not_live v decoded key); [apply Hr|done]. }
  split; [by apply (handler_serves _ _ _ _ decoded)|].
  rewrite (handler_resolve _ _ _ _ _ _ Hr Hu).
  destruct (resolve v (BUCKET env) key) as [keys ending].
  apply network_calls_gets.
Qed.

Lemma tile_never_proxied_witness :
  network_calls (trace_of (handler Rev000 (request_of "GET" "/maps/live/tiles/0/x0/z0.png")
                             (env_of ∅ (Some "http://mc.example:8100"))
                             (online hour_cached_reply))) = [].
Proof.
  apply (tile_never_proxied Rev000 (online hour_cached_reply)
           (env_of ∅ (Some "http://mc.example:8100"))
           (request_of "GET" "/maps/live/tiles/0/x0/z0.png")
           "/maps/live/tiles/0/x0/z0.png" "maps/live/tiles/0/x0/z0.png");
    [concrete_reach|reflexivity].
Defined.

(** ** Methods and validators that change nothing *)

Lemma serve_method v m request env key w :
  serve v (with_method m request) env key w = serve v request env key w.
Proof. by rewrite !serve_resolve. Qed.

(** X9: unless the request is forwarded to the live origin, HEAD is
    answered exactly as GET is: same calls, same status, headers and body. *)
Theorem head_answered_as_get v w env request :
  method request = "HEAD" →
  (∀ decoded, decodeURIComponent w (pathname request) = Some decoded →
              unproxied env decoded) →
  handler v request env w = handler v (with_method "GET" request) env w.
Proof.
  intros Hm Hu.
  destruct (decodeURIComponent w (pathname request)) as [decoded|] eqn:Hp.
  - specialize (Hu decoded eq_refl).
    destruct v.
    + assert (Hr : ∀ rq, reads rq → pathname rq = pathname request →
                reaches Rev000 w rq decoded
                  (default "" (normalizedKey Rev000 decoded))).
      { intros rq H1 H2. split; [done|]. split; [done|]. by rewrite H2. }
      rewrite (handler_serves Rev000 w request env decoded _
                 (Hr request (or_intror Hm) eq_refl) Hu).
      rewrite (handler_serves Rev000 w (with_method "GET" request) env decoded _
                 (Hr (with_method "GET" request) (or_introl eq_refl) eq_refl) Hu).
      symmetry. apply (serve_method Rev000).
    + unfold handler, Part001.fetch. cbn [pathname method with_method]. rewrite Hm.
      destruct (String.eqb (pathname request) "/debug/live"); [done|].
      destruct (String.eqb (pathname request) "/debug"); [done|].
      cbn [String.eqb Ascii.eqb Bool.eqb negb andb]. rewrite !bind_decode, Hp.
      destruct (startsWith (strip_leading_slash decoded) "maps/"); [|done].
      cbn [negb].
      replace (match configured (LIVE_SERVER_ORIGIN env) with
               | Some live =>
                   if maps_segment_then "live" (strip_leading_slash decoded)
                   then Some live else None
               | None => None
               end) with (@None string).
      * symmetry. apply (serve_method Rev001).
      * destruct Hu as [-> | Hu]; [done|]. unfold is_live in Hu. rewrite Hu.
        by destruct (configured _).
  - destruct v; unfold handler.
    + unfold Part000.fetch. cbn [pathname with_method]. by rewrite !bind_decode, Hp.
    + unfold Part001.fetch. cbn [pathname method with_method]. rewrite Hm.
      destruct (String.eqb (pathname request) "/debug/live"); [done|].
      destruct (String.eqb (pathname request) "/debug"); [done|].
      cbn [String.eqb Ascii.eqb Bool.eqb negb andb]. by rewrite !bind_decode, Hp.
Qed.

Lemma head_answered_as_get_witness :
  handler Rev001 (request_of "HEAD" "/maps/world/textures.json")
    (env_of {["world/textures.json.gz" := stored "v1" "gzip bytes"]} None) offline
  = handler Rev001 (request_of "GET" "/maps/world/textures.json")
      (env_of {["world/textures.json.gz" := stored "v1" "gzip bytes"]} None) offline.
Proof.
  apply (head_answered_as_get Rev001 offline
           (env_of {["world/textures.json.gz" := stored "v1" "gzip bytes"]} None)
           (request_of "HEAD" "/maps/world/textures.json") eq_refl).
  intros decoded _. by left.
Defined.

Lemma validator_misses h etag :
  headers_get "If-None-Match" h ≠ Some etag → if_none_match_hits h etag = false.
Proof.
  intros Hne. unfold if_none_match_hits.
  destruct (headers_get "If-None-Match" h) as [x|]; [|done].
  destruct (String.eqb x etag) eqn:E; [|by rewrite andb_false_r].
  apply String.eqb_eq in E as ->. done.
Qed.

Lemma found_response_fresh_eq v o ct gz request request' :
  fresh request o → fresh request' o →
  found_response v o ct gz request = found_response v o ct gz request'.
Proof.
  unfold fresh. intros H H'.
  destruct v, gz; unfold_found; by rewrite H, H'.
Qed.

(** X10: an [If-None-Match] header that differs from the ETag of what
    would be served changes nothing: the run is that of the same request
    without the header. *)
Theorem stale_validator_ignored v w env request decoded key :
  reaches v w request decoded key → unproxied env decoded →
  (∀ r etag,
     result_of (handler v (without_validator request) env w) = Respond r →
     headers_get "ETag" (headers r) = Some etag →
     headers_get "If-None-Match" (req_headers request) ≠ Some etag) →
  handler v request env w = handler v (without_validator request) env w.
Proof.
  intros Hr Hu Hne.
  rewrite (handler_resolve _ _ _ _ _ _ (reaches_without_validator _ _ _ _ _ Hr) Hu)
    in Hne |- *.
  rewrite (handler_resolve _ _ _ _ _ _ Hr Hu).
  destruct (resolve v (BUCKET env) key) as [keys [o gz| |error]]; [|done..].
  unfold result_of, settled in Hne |- *. cbn [snd] in Hne.
  do 2 f_equal. apply found_response_fresh_eq; [|apply without_validator_fresh].
  apply validator_misses. apply (Hne _ _ eq_refl).
  by destruct (found_headers_get v o (mime v key) gz (without_validator request))
    as (_ & _ & Ht & _).
Qed.

Lemma stale_validator_ignored_witness :
  ∃ r, handler Rev001
         {| method := "GET"; pathname := "/maps/world/textures.json";
            searchParams := ∅;
            req_headers := headers_of [("If-None-Match", "v0")] |}
         (env_of {["world/textures.json.gz" := stored "v1" "gzip bytes"]} None) offline
       = ([BucketGet "world/textures.json.gz"], Respond r)
    ∧ status r = 200 ∧ body r = BodyStream "gzip bytes".
Proof.
  rewrite (stale_validator_ignored Rev001 offline
             (env_of {["world/textures.json.gz" := stored "v1" "gzip bytes"]} None)
             {| method := "GET"; pathname := "/maps/world/textures.json";
                searchParams := ∅;
                req_headers := headers_of [("If-None-Match", "v0")] |}
             "/maps/world/textures.json" "world/textures.json"
             ltac:(concrete_reach) ltac:(by left)).
  - eexists. split; [reflexivity|]. split; reflexivity.
  - intros r etag Hrun. vm_compute in Hrun. injection Hrun as <-.
    intros He. vm_compute in He. injection He as <-. discriminate.
Defined.

(** ** The path patterns *)

(** X11: the tile and live patterns accept exactly the paths
    [maps/<id>/<dir>/...] whose [<id>] is not empty and holds no slash. *)
Theorem maps_pattern_spec dir s :
  maps_segment_then dir s = true ↔
  ∃ id rest, id ≠ "" ∧ free_of "/" id = true
    ∧ s = "maps/" +:+ id +:+ "/" +:+ dir +:+ "/" +:+ rest.
Proof.
  unfold maps_segment_then, segment_then. split.
  - intros [H1 H2]%andb_prop.
    apply startsWith_inv in H1 as [t ->].
    change (substring_from 5 ("maps/" +:+ t)) with t in H2.
    destruct (after_segment t) as [r|] eqn:E; [|done].
    apply after_segment_spec in E as (id & Hne & Hf & ->).
    apply startsWith_inv in H2 as [rest ->].
    exists id, rest. by rewrite !append_assoc.
  - intros (id & rest & Hne & Hf & ->).
    rewrite startsWith_append.
    change (substring_from 5 ("maps/" +:+ ?t)) with t.
    assert (after_segment (id +:+ "/" +:+ dir +:+ "/" +:+ rest)
            = Some (dir +:+ "/" +:+ rest)) as ->
      by (apply after_segment_spec; eauto).
    rewrite <-append_assoc. apply startsWith_append.
Qed.

(** X12: the [.gz] guard of [shouldTryGz] never decides: the function is
    true exactly on the paths that end in [.prbm] or in [textures.json]. *)
Theorem shouldTryGz_spec path :
  Part000.shouldTryGz path = endsWith path ".prbm" || endsWith path "textures.json".
Proof.
  unfold Part000.shouldTryGz. simpl. rewrite !orb_false_r.
  destruct (endsWith path ".gz") eqn:Hgz.
  - destruct (endsWith path ".prbm") eqn:H1.
    { by_suffix H1. unfold endsWith in Hgz. rewrite Hr in Hgz. discriminate Hgz. }
    destruct (endsWith path "textures.json") eqn:H2; [|done].
    by_suffix H2. unfold endsWith in Hgz. rewrite Hr in Hgz. discriminate Hgz.
  - by destruct (endsWith path ".prbm"), (endsWith path "textures.json").
Qed.

(** ** Content types *)

Lemma lower_ascii_dot c : Ascii.eqb (lower_ascii c) "." = Ascii.eqb c ".".
Proof. by destruct c as [[] [] [] [] [] [] [] []]. Qed.

Lemma free_of_lower e : free_of "." (toLowerCase e) = free_of "." e.
Proof.
  induction e as [|c e IH]; [done|]. simpl. by rewrite lower_ascii_dot, IH.
Qed.

Lemma lower_ascii_idemp c : lower_ascii (lower_ascii c) = lower_ascii c.
Proof. by destruct c as [[] [] [] [] [] [] [] []]. Qed.

Lemma toLowerCase_idemp s : toLowerCase (toLowerCase s) = toLowerCase s.
Proof. induction s as [|c s IH]; [done|]. simpl. by rewrite lower_ascii_idemp, IH. Qed.

(** X13: in part_000 the content type depends only on the text after the
    last dot of the path, whatever its case. *)
Theorem mime000_by_last_extension path path' e :
  free_of "." e = true →
  endsWith path (String "." e) = true →
  endsWith path' (String "." (toLowerCase e)) = true →
  Part000.getMimeType path = Part000.getMimeType path'.
Proof.
  intros He H H'.
  rewrite (mime000_of_ext path e H He).
  rewrite (mime000_of_ext path' (toLowerCase e) H') by by rewrite free_of_lower.
  by rewrite toLowerCase_idemp.
Qed.

Lemma mime000_by_last_extension_witness :
  Part000.getMimeType "maps/world.v2/tiles/1/x0/z0.PNG" = Part000.getMimeType "a.png".
Proof.
  apply (mime000_by_last_extension "maps/world.v2/tiles/1/x0/z0.PNG" "a.png" "PNG");
    reflexivity.
Defined.

(** X14: part_001 types a path by its literal suffix: PNG exactly for
    [.png], JSON exactly for [.json] and [.json.gz], and the octet stream
    for everything else. *)
Theorem mime001_spec path :
  (Part001.getMimeType path = "image/png" ↔ endsWith path ".png" = true)
  ∧ (Part001.getMimeType path = "application/json" ↔
     endsWith path ".json" = true ∨ endsWith path ".json.gz" = true)
  ∧ (Part001.getMimeType path = "application/octet-stream" ↔
     endsWith path ".png" = false ∧ endsWith path ".json" = false
     ∧ endsWith path ".json.gz" = false).
Proof.
  assert (endsWith path ".png" = true →
          endsWith path ".prbm" = false ∧ endsWith path ".prbm.gz" = false
          ∧ endsWith path ".json" = false ∧ endsWith path ".json.gz" = false) as Hpng.
  { intros H. by_suffix H. by repeat split. }
  assert (endsWith path ".json" = true →
          endsWith path ".prbm" = false ∧ endsWith path ".prbm.gz" = false) as Hjson.
  { intros H. by_suffix H. by repeat split. }
  assert (endsWith path ".json.gz" = true →
          endsWith path ".prbm" = false ∧ endsWith path ".prbm.gz" = false) as Hjgz.
  { intros H. by_suffix H. by repeat split. }
  unfold Part001.getMimeType.
  destruct (endsWith path ".png") eqn:E1.
  - destruct (Hpng eq_refl) as (-> & -> & -> & ->). simpl.
    repeat split; try done; intros; intuition discriminate.
  - destruct (endsWith path ".json") eqn:E2.
    + destruct (Hjson eq_refl) as (-> & ->). simpl.
      repeat split; try done; intros; intuition discriminate.
    + destruct (endsWith path ".json.gz") eqn:E3.
      * destruct (Hjgz eq_refl) as (-> & ->). simpl.
        repeat split; try done; intros; intuition discriminate.
      * destruct (endsWith path ".prbm"), (endsWith path ".prbm.gz"); simpl;
          repeat split; try done; intros; intuition discriminate.
Qed.

(** ** The configured origin *)

Lemma drop_slashes_spec s :
  ∃ n, s = slashes n +:+ drop_slashes s ∧ startsWith (drop_slashes s) "/" = false.
Proof.
  induction s as [|c s (n & Hs & Hd)]; [by exists 0|].
  destruct (Ascii.eqb c "/") eqn:E.
  - apply Ascii.eqb_eq in E as ->. exists (S n). simpl.
    split; [by rewrite app_cons, <-Hs|done].
  - exists 0. by destruct c as [[] [] [] [] [] [] [] []].
Qed.

Lemma rev_slashes n : String.rev (slashes n) = slashes n.
Proof.
  induction n as [|n IH]; [done|]. simpl. rewrite rev_cons, IH.
  clear IH. induction n as [|n IH]; [done|]. simpl. by rewrite app_cons, IH.
Qed.

(** X15: stripping the trailing slashes removes a run of slashes from the
    end, and nothing else, and leaves a string that does not end in a
    slash. *)
Theorem strip_trailing_slashes_spec s :
  ∃ n, s = strip_trailing_slashes s +:+ slashes n
    ∧ endsWith (strip_trailing_slashes s) "/" = false.
Proof.
  unfold strip_trailing_slashes, endsWith.
  destruct (drop_slashes_spec (String.rev s)) as (n & Hs & Hd).
  exists n. split.
  - rewrite <-(rev_involutive s) at 1. rewrite Hs at 1.
    by rewrite rev_append, rev_slashes.
  - by rewrite rev_involutive.
Qed.

Lemma drop_slashes_app n s : drop_slashes (slashes n +:+ s) = drop_slashes s.
Proof.
  induction n as [|n IH]; [done|].
  change (slashes (S n)) with (String "/" (slashes n)). by rewrite app_cons.
Qed.

Lemma strip_app_slashes o n :
  strip_trailing_slashes (o +:+ slashes n) = strip_trailing_slashes o.
Proof.
  unfold strip_trailing_slashes.
  by rewrite rev_append, rev_slashes, drop_slashes_app.
Qed.

Lemma configured_nonempty o : o ≠ "" → configured (Some o) = Some o.
Proof. by destruct o. Qed.

Lemma app_slashes_nonempty o n : o ≠ "" → o +:+ slashes n ≠ "".
Proof. by destruct o. Qed.

(** X16: trailing slashes on the configured origin make no difference to
    any request, in either revision. *)
Theorem origin_trailing_slashes_irrelevant v w bucket request o n :
  o ≠ "" →
  handler v request
    {| BUCKET := bucket; LIVE_SERVER_ORIGIN := Some (o +:+ slashes n) |} w
  = handler v request {| BUCKET := bucket; LIVE_SERVER_ORIGIN := Some o |} w.
Proof.
  intros Ho. destruct v; unfold handler.
  - unfold Part000.fetch. rewrite !bind_decode.
    destruct (decodeURIComponent w (pathname request)) as [decoded|]; [|done].
    cbn [LIVE_SERVER_ORIGIN].
    rewrite (configured_nonempty _ Ho),
      (configured_nonempty _ (app_slashes_nonempty _ n Ho)).
    destruct (String.eqb (method request) "OPTIONS"); [done|].
    destruct (negb _ && negb _); [done|].
    destruct (Part000.isLivePath _); [|done].
    unfold Part000.live_proxy. by rewrite strip_app_slashes.
  - unfold Part001.fetch, Part001.debug_live. cbn [LIVE_SERVER_ORIGIN].
    rewrite (configured_nonempty _ Ho),
      (configured_nonempty _ (app_slashes_nonempty _ n Ho)), strip_app_slashes.
    destruct (String.eqb (pathname request) "/debug/live"); [done|].
    destruct (String.eqb (pathname request) "/debug"); [done|].
    destruct (String.eqb (method request) "OPTIONS"); [done|].
    destruct (negb _ && negb _); [done|].
    rewrite !bind_decode.
    destruct (decodeURIComponent w (pathname request)) as [decoded|]; [|done].
    destruct (negb _); [done|].
    destruct (maps_segment_then "live" _); [|done].
    unfold Part001.live_proxy. by rewrite strip_app_slashes.
Qed.

Lemma origin_trailing_slashes_irrelevant_witness :
  handler Rev001 (request_of "GET" "/maps/world/live/players.json")
    {| BUCKET := bucket_of ∅; LIVE_SERVER_ORIGIN := Some "http://mc.example:8100//" |}
    (online hour_cached_reply)
  = handler Rev001 (request_of "GET" "/maps/world/live/players.json")
      {| BUCKET := bucket_of ∅; LIVE_SERVER_ORIGIN := Some "http://mc.example:8100" |}
      (online hour_cached_reply).
Proof.
  apply (origin_trailing_slashes_irrelevant Rev001 (online hour_cached_reply)
           (bucket_of ∅) (request_of "GET" "/maps/world/live/players.json")
           "http://mc.example:8100" 2).
  discriminate.
Defined.

(** ** The debug endpoints of part_001 *)

(** X17: [/debug] is served for every method, before the path is decoded:
    one listing call with the query's prefix and limit (50 when none is
    given).  When the bucket answers, the request is answered 200 as JSON
    without the CORS header, and the report is what the bucket listed: its
    [truncated] flag, the number of its objects, and the objects themselves;
    when the listing throws, the handler throws. *)
Theorem debug_lists_for_every_method w env request :
  pathname request = "/debug" →
  match list_reply (BUCKET env)
          {| prefix := searchParams request !! "prefix";
             limit_text := default "50" (searchParams request !! "max") |}
  with
  | Resolved reply =>
      ∃ r, handler Rev001 request env w
           = ([BucketList {| prefix := searchParams request !! "prefix";
                             limit_text := default "50" (searchParams request !! "max") |}],
              Respond r)
        ∧ status r = 200
        ∧ headers_get "Content-Type" (headers r) = Some "application/json"
        ∧ headers_get "Access-Control-Allow-Origin" (headers r) = None
        ∧ body r = BodyJson (ReportListing (truncated reply)
                               (length (listed_objects reply)) (listed_objects reply))
  | Thrown error =>
      handler Rev001 request env w
      = ([BucketList {| prefix := searchParams request !! "prefix";
                        limit_text := default "50" (searchParams request !! "max") |}],
         Throw error)
  end.
Proof.
  intros Hp. unfold handler, Part001.fetch. rewrite Hp.
  cbn [String.eqb Ascii.eqb Bool.eqb]. unfold Part001.debug_list.
  unfold mbind, eff_bind, bucket_list.
  destruct (list_reply (BUCKET env) _) as [reply|error]; [|reflexivity].
  eexists. split; [reflexivity|]. by repeat split.
Qed.

Lemma debug_lists_for_every_method_witness :
  ∃ r, handler Rev001
         {| method := "DELETE"; pathname := "/debug";
            searchParams := {["prefix" := "world/"]}; req_headers := ∅ |}
         (env_of {["world/settings.json" := stored "v1" "{}";
                   "nether/settings.json" := stored "v2" "{}"]} None) offline
       = ([BucketList {| prefix := Some "world/"; limit_text := "50" |}], Respond r)
    ∧ status r = 200
    ∧ body r = BodyJson (ReportListing false 1 [("world/settings.json", 2%Z)]).
Proof.
  destruct (debug_lists_for_every_method offline
              (env_of {["world/settings.json" := stored "v1" "{}";
                        "nether/settings.json" := stored "v2" "{}"]} None)
              {| method := "DELETE"; pathname := "/debug";
                 searchParams := {["prefix" := "world/"]}; req_headers := ∅ |} eq_refl)
    as (r & Hrun & Hs & _ & _ & Hb).
  exists r. split; [exact Hrun|]. split; [exact Hs|].
  rewrite Hb. reflexivity.
Defined.

(** X18: [/debug/live] is served for every method.  Without a configured
    origin it answers 500 and calls nothing; with one it sends a single GET
    for the players file of map [world] and answers 200 whatever status the
    origin returned, or 502 when the request failed; no CORS header is set. *)
Theorem debug_live_probe w env request :
  pathname request = "/debug/live" →
  match configured (LIVE_SERVER_ORIGIN env) with
  | None =>
      ∃ r, handler Rev001 request env w = ([], Respond r)
        ∧ status r = 500 ∧ body r = BodyJson ReportNoOrigin
  | Some live =>
      ∃ rq r, handler Rev001 request env w = ([NetFetch rq], Respond r)
        ∧ out_url rq = strip_trailing_slashes live +:+ "/maps/world/live/players.json"
        ∧ out_method rq = "GET"
        ∧ status r = match network w rq with Fetched _ => 200 | Rejected _ => 502 end
        ∧ headers_get "Access-Control-Allow-Origin" (headers r) = None
  end.
Proof.
  intros Hp. unfold handler, Part001.fetch. rewrite Hp.
  cbn [String.eqb Ascii.eqb Bool.eqb]. unfold Part001.debug_live.
  destruct (configured (LIVE_SERVER_ORIGIN env)) as [live|].
  - rewrite bind_fetch. unfold logged.
    match goal with |- context [network w ?q] => exists q; destruct (network w q) end;
      eexists; (split; [reflexivity|]); by repeat split.
  - eexists. by repeat split.
Qed.

Lemma debug_live_probe_witness :
  ∃ rq r, handler Rev001 (request_of "POST" "/debug/live")
            (env_of ∅ (Some "http://mc.example:8100/")) offline
          = ([NetFetch rq], Respond r)
    ∧ out_url rq = "http://mc.example:8100/maps/world/live/players.json"
    ∧ out_method rq = "GET"
    ∧ status r = 502.
Proof.
  destruct (debug_live_probe offline (env_of ∅ (Some "http://mc.example:8100/"))
              (request_of "POST" "/debug/live") eq_refl)
    as (rq & r & Hrun & Hu & Hm & Hs & _).
  exists rq, r. by rewrite Hu.
Defined.

(** ** What the live origin is sent *)

(** X19: part_001 forwards two headers only, the client's [Accept]
    ([*/*] when absent) and its own [User-Agent]; part_000 forwards every
    header of the request, in a request for the serialised target URL, and
    sends nothing at all when the target is no URL: the handler then
    throws. *)
Theorem proxy_forwarded_headers v w env request decoded live :
  reads request → (v = Rev001 → not_debug request) →
  decodeURIComponent w (pathname request) = Some decoded →
  is_live decoded = true → configured (LIVE_SERVER_ORIGIN env) = Some live →
  match v with
  | Rev000 =>
      match request_url w
              (strip_trailing_slashes live +:+ "/" +:+ strip_leading_slash decoded)
      with
      | Some url =>
          ∃ rq, trace_of (handler v request env w) = [NetFetch rq]
            ∧ out_url rq = url
            ∧ out_headers rq = req_headers request
      | None => ∃ error, handler v request env w = ([], Throw error)
      end
  | Rev001 =>
      ∃ rq, trace_of (handler v request env w) = [NetFetch rq]
        ∧ dom (out_headers rq) = {["accept"; "user-agent"]}
        ∧ headers_get "Accept" (out_headers rq)
          = Some (default "*/*" (headers_get "Accept" (req_headers request)))
        ∧ headers_get "User-Agent" (out_headers rq) = Some "bluemap-cloudflare-worker"
  end.
Proof.
  intros Hm Hd Hp Hl Hc.
  rewrite (handler_proxies _ _ _ _ _ _ Hm Hd Hp Hl Hc).
  destruct v; unfold proxy, Part000.live_proxy, Part001.live_proxy.
  - rewrite bind_new_request.
    destruct (request_url w _) as [url|]; [|by eexists].
    rewrite bind_fetch; unfold logged, trace_of.
    match goal with |- context [network w ?q] => exists q; destruct (network w q) end;
      [by destruct (response_status_ok _)|done].
  - rewrite bind_fetch; unfold logged, trace_of.
    match goal with |- context [network w ?q] => exists q; destruct (network w q) end;
      (split; [by destruct (response_status_ok _) || reflexivity|]);
      cbn [out_headers];
      unfold headers_of, headers_set, headers_get; cbn [foldl fst snd]; lower_names;
      (split; [rewrite !dom_insert_L, dom_empty_L; set_solver|]);
      split; by simplify_map_eq.
Qed.

Lemma proxy_forwarded_headers_witness :
  (∃ rq, trace_of (handler Rev001
                     {| method := "GET"; pathname := "/maps/world/live/players.json";
                        searchParams := ∅;
                        req_headers := headers_of [("Cookie", "session=1")] |}
                     (env_of ∅ (Some "http://mc.example:8100")) offline) = [NetFetch rq]
     ∧ headers_get "Cookie" (out_headers rq) = None
     ∧ headers_get "Accept" (out_headers rq) = Some "*/*")
  ∧ (∃ rq, trace_of (handler Rev000
                       {| method := "GET"; pathname := "/maps/world/live/players.json";
                          searchParams := ∅;
                          req_headers := headers_of [("Cookie", "session=1")] |}
                       (env_of ∅ (Some "http://mc.example:8100")) offline) = [NetFetch rq]
       ∧ out_url rq = "http://mc.example:8100/maps/world/live/players.json"
       ∧ headers_get "Cookie" (out_headers rq) = Some "session=1").
Proof.
  split.
  - destruct (proxy_forwarded_headers Rev001 offline
                (env_of ∅ (Some "http://mc.example:8100"))
                {| method := "GET"; pathname := "/maps/world/live/players.json";
                   searchParams := ∅;
                   req_headers := headers_of [("Cookie", "session=1")] |}
                "/maps/world/live/players.json" "http://mc.example:8100")
      as (rq & Ht & Hdom & Ha & _);
      [by left|intros _; split; discriminate|reflexivity..|].
    exists rq. split; [exact Ht|]. split; [|exact Ha].
    apply not_elem_of_dom. rewrite Hdom. vm_compute. set_solver.
  - destruct (proxy_forwarded_headers Rev000 offline
                (env_of ∅ (Some "http://mc.example:8100"))
                {| method := "GET"; pathname := "/maps/world/live/players.json";
                   searchParams := ∅;
                   req_headers := headers_of [("Cookie", "session=1")] |}
                "/maps/world/live/players.json" "http://mc.example:8100")
      as (rq & Ht & Hurl & Hh);
      [by left|discriminate|reflexivity..|].
    exists rq. split; [exact Ht|]. split; [exact Hurl|]. rewrite Hh. reflexivity.
Defined.

(** * The upload script *)

(** ** Keys and content types *)

Lemma split_go_nonempty sep cur s : split_go sep cur s ≠ [].
Proof.
  revert cur. induction s as [|c s IH]; intros cur; simpl; [done|].
  destruct (Ascii.eqb c sep); [done|apply IH].
Qed.

Lemma join_cons sep piece rest :
  rest ≠ [] → Upload.join sep (piece :: rest) = piece +:+ sep +:+ Upload.join sep rest.
Proof. by destruct rest. Qed.

Lemma join_split_go cur s :
  Upload.join "/" (split_go "\" cur s) = String.rev cur +:+ Upload.slashed s.
Proof.
  revert cur. induction s as [|c s IH]; intros cur.
  - simpl. by rewrite append_nil_r.
  - cbn [split_go Upload.slashed]. destruct (Ascii.eqb c "\") eqn:E.
    + rewrite join_cons by apply split_go_nonempty. by rewrite IH.
    + rewrite IH, rev_cons, append_assoc. done.
Qed.

Lemma slashed_free s : free_of "\" (Upload.slashed s) = true.
Proof.
  induction s as [|c s IH]; [done|]. simpl. rewrite IH.
  by destruct (Ascii.eqb c "\") eqn:E; [|rewrite E].
Qed.

Lemma slashed_id s : free_of "\" s = true → Upload.slashed s = s.
Proof.
  induction s as [|c s IH]; [done|]. simpl.
  intros [Hc Hs]%andb_prop. rewrite IH by done.
  by destruct (Ascii.eqb c "\").
Qed.

Lemma slashed_length s : String.length (Upload.slashed s) = String.length s.
Proof. induction s as [|c s IH]; [done|]. simpl. by rewrite IH. Qed.

(** X20: [toR2Key] turns every backslash of the relative path into a
    slash and changes nothing else: the key has no backslash and the length
    of the relative path, and a relative path without backslashes is its own
    key. *)
Theorem toR2Key_spec relative filePath :
  Upload.toR2Key relative filePath = Upload.slashed (relative filePath)
  ∧ free_of "\" (Upload.toR2Key relative filePath) = true
  ∧ String.length (Upload.toR2Key relative filePath)
    = String.length (relative filePath)
  ∧ (free_of "\" (relative filePath) = true →
     Upload.toR2Key relative filePath = relative filePath).
Proof.
  assert (Upload.toR2Key relative filePath = Upload.slashed (relative filePath)) as ->
    by apply (join_split_go "").
  auto using slashed_free, slashed_length, slashed_id.
Qed.

(** X21: whenever the script labels a key with a type other than the
    octet stream and gzip, the part_000 worker serves that key with the same
    media type, at most followed by a charset. *)
Theorem upload_type_agrees_with_worker key :
  Upload.contentType key = "application/octet-stream"
  ∨ Upload.contentType key = "application/gzip"
  ∨ startsWith (Part000.getMimeType key) (Upload.contentType key) = true.
Proof.
  unfold Upload.contentType, Part000.getMimeType.
  generalize (from_option toLowerCase "" (pop (split "." key))). intros ext.
  destruct (Upload.content_types !! ext) as [type|] eqn:E.
  - apply elem_of_list_to_map_2 in E.
    repeat (apply elem_of_cons in E as [[= -> ->]|E];
            [first [by left | by right; left | by right; right]|]).
    by apply elem_of_nil in E.
  - destruct (Part000.inherited_member ext) as [member|] eqn:Em; [|by left].
    right; right. unfold Part000.inherited_member in Em.
    destruct (String.eqb ext "constructor") eqn:E1.
    { apply String.eqb_eq in E1 as ->. by injection Em as <-. }
    destruct (String.eqb ext "__proto__") eqn:E2; [|done].
    apply String.eqb_eq in E2 as ->. by injection Em as <-.
Qed.

(** ** The main loop *)

Lemma upload_loop_spec relative bucket dry_run exec files tally :
  let cmds :=
    (fun file => Upload.command bucket (Upload.toR2Key relative file) file
                   (Upload.contentType (Upload.toR2Key relative file))) <$> files in
  let final := Upload.upload_loop relative bucket dry_run exec files tally in
  Upload.uploaded final + Upload.failed final
  = Upload.uploaded tally + Upload.failed tally + length files
  ∧ Upload.executed final
    = Upload.executed tally ++ (if dry_run then [] else cmds)
  ∧ Upload.failed final
    = Upload.failed tally
      + (if dry_run then 0 else length (filter (fun c => exec c = false) cmds)).
Proof.
  cbv zeta. revert tally. induction files as [|file rest IH]; intros tally.
  - cbn [Upload.upload_loop fmap list_fmap length filter list_filter].
    destruct dry_run; rewrite app_nil_r; repeat split; simpl; lia.
  - cbn [Upload.upload_loop fmap list_fmap].
    destruct dry_run.
    + match goal with
      | |- context [Upload.upload_loop _ _ _ _ rest ?t] =>
          destruct (IH t) as (H1 & H2 & H3)
      end.
      cbn [Upload.uploaded Upload.failed Upload.executed length] in *.
      repeat split; [lia|done|lia].
    + destruct (exec _) eqn:E;
        match goal with
        | |- context [Upload.upload_loop _ _ _ _ rest ?t] =>
            destruct (IH t) as (H1 & H2 & H3)
        end;
        cbn [Upload.uploaded Upload.failed Upload.executed length] in *.
      * rewrite filter_cons_False by (rewrite E; discriminate).
        repeat split; [lia|by rewrite H2, <-app_assoc|lia].
      * rewrite filter_cons_True by done.
        repeat split; [lia|by rewrite H2, <-app_assoc|simpl; lia].
Qed.

(** X22: the script counts every file once, as uploaded or as failed.  A
    dry run executes nothing and fails nothing; a real run executes one
    command per file, in order and whatever failed before, and counts the
    failed commands.  The exit code is 1 exactly when an upload failed. *)
Theorem upload_all_spec relative bucket dry_run exec files :
  let cmds :=
    (fun file => Upload.command bucket (Upload.toR2Key relative file) file
                   (Upload.contentType (Upload.toR2Key relative file))) <$> files in
  let tally := (Upload.upload_all relative bucket dry_run exec files).1 in
  let code := (Upload.upload_all relative bucket dry_run exec files).2 in
  Upload.uploaded tally + Upload.failed tally = length files
  ∧ Upload.executed tally = (if dry_run then [] else cmds)
  ∧ Upload.failed tally
    = (if dry_run then 0 else length (filter (fun c => exec c = false) cmds))
  ∧ (code = 1 ↔ 0 < Upload.failed tally)
  ∧ (code = 0 ↔ Upload.failed tally = 0).
Proof.
  intros cmds tally code. unfold code, tally, Upload.upload_all. cbn [fst snd].
  destruct (upload_loop_spec relative bucket dry_run exec files
              {| Upload.uploaded := 0; Upload.failed := 0; Upload.executed := [] |})
    as (H1 & H2 & H3).
  cbn [Upload.uploaded Upload.failed Upload.executed] in *.
  split; [exact H1|]. split; [exact H2|]. split; [exact H3|].
  destruct (0 <? _) eqn:E;
    [apply Nat.ltb_lt in E|apply Nat.ltb_ge in E]; split; split; intros; lia.
Qed.

(** ** Walking the webroot *)

Lemma Node_nested_ind (P : Upload.Node → Prop) :
  P Upload.File → P Upload.Special →
  (∀ entries, Forall (fun en => P en.2) entries → P (Upload.Directory entries)) →
  ∀ node, P node.
Proof.
  intros HF HS HD. fix IH 1. intros [|entries|]; [exact HF| |exact HS].
  apply HD. induction entries as [|[entry node] others IHo]; constructor.
  - apply IH.
  - exact IHo.
Qed.

Lemma first_piece_app_sep sep name rest :
  sep = "/"%char ∨ sep = "\"%char →
  Upload.first_piece (name +:+ String sep rest) = Upload.first_piece name.
Proof.
  intros Hsep. induction name as [|c name IH].
  - by destruct Hsep as [-> | ->].
  - rewrite app_cons. simpl. by rewrite IH.
Qed.

Lemma first_piece_relative sep name names :
  sep = "/"%char ∨ sep = "\"%char →
  Upload.first_piece (Upload.relative_names sep (name :: names))
  = Upload.first_piece name.
Proof.
  intros Hsep. unfold Upload.relative_names. destruct names as [|n ns]; [done|].
  rewrite join_cons by done. apply (first_piece_app_sep sep name _ Hsep).
Qed.

Lemma walk_nil sep names : Upload.walk sep names (Upload.Directory []) = [].
Proof. done. Qed.

Lemma walk_cons sep names entry node others :
  Upload.walk sep names (Upload.Directory ((entry, node) :: others))
  = (if bool_decide (Upload.first_piece (Upload.relative_names sep (names ++ [entry]))
                     ∈ Upload.IGNORE)
        || bool_decide (entry ∈ Upload.IGNORE)
     then []
     else match node with
          | Upload.Directory _ => Upload.walk sep (names ++ [entry]) node
          | Upload.File => [names ++ [entry]]
          | Upload.Special => []
          end)
    ++ Upload.walk sep names (Upload.Directory others).
Proof.
  cbn [Upload.walk]. destruct (_ || _); [done|]. by destruct node.
Qed.

Lemma in_tree_nil path node : ¬ Upload.in_tree [] path node.
Proof. intros H. inversion H; subst; by eapply not_elem_of_nil. Qed.

Lemma in_tree_cons entry node others path found :
  Upload.in_tree ((entry, node) :: others) path found ↔
  (path = [entry] ∧ found = node)
  ∨ (∃ inside rest, node = Upload.Directory inside ∧ path = entry :: rest
       ∧ Upload.in_tree inside rest found)
  ∨ Upload.in_tree others path found.
Proof.
  split.
  - intros H. inversion H as [? e n Hin|? e inside rest n Hin Hrest]; subst.
    + apply elem_of_cons in Hin as [[= -> ->]|Hin]; [by left|].
      right; right. by constructor.
    + apply elem_of_cons in Hin as [[= -> <-]|Hin]; [right; left; eauto|].
      right; right. by econstructor.
  - intros [[-> ->]|[(inside & rest & -> & -> & H)|H]].
    + constructor. by left.
    + econstructor; [by left|done].
    + inversion H; subst.
      * constructor. by right.
      * econstructor; [by right|done].
Qed.

Lemma hd_app_cons (names : list string) entry rest :
  hd "" (names ++ entry :: rest) = hd "" (names ++ [entry]).
Proof. by destruct names. Qed.

Lemma top_level_hd sep names entry :
  sep = "/"%char ∨ sep = "\"%char →
  Upload.first_piece (Upload.relative_names sep (names ++ [entry]))
  = Upload.first_piece (hd "" (names ++ [entry])).
Proof.
  intros Hsep. destruct names as [|n ns]; simpl; by apply first_piece_relative.
Qed.

Lemma walk_kept sep :
  sep = "/"%char ∨ sep = "\"%char →
  ∀ node names full,
    full ∈ Upload.walk sep names node ↔
    match node with
    | Upload.Directory entries => kept names entries full
    | _ => False
    end.
Proof.
  intros Hsep node. induction node as [| |entries IH] using Node_nested_ind;
    intros names full; [by rewrite elem_of_nil..|].
  induction IH as [|[entry node] others Hnode _ IHothers].
  - rewrite walk_nil, elem_of_nil. split; [done|].
    intros (path & _ & H & _). by apply in_tree_nil in H.
  - rewrite walk_cons, elem_of_app, IHothers, (top_level_hd sep names entry Hsep).
    cbn [snd] in Hnode. unfold kept. setoid_rewrite in_tree_cons.
    split.
    + intros [H|(path & -> & H & Hp & Ht)]; [|exists path; eauto 10].
      destruct (bool_decide _ || bool_decide _) eqn:E; [by apply elem_of_nil in H|].
      apply orb_false_elim in E as [E1 E2].
      apply bool_decide_eq_false in E1, E2.
      destruct node as [|inside|]; [| |by apply elem_of_nil in H].
      * apply list_elem_of_singleton in H as ->. exists [entry].
        split; [done|]. split; [by left|]. split; [by repeat constructor|done].
      * apply Hnode in H as (rest & -> & Hin & Hrest & Htop).
        exists (entry :: rest). rewrite <-app_assoc. split; [done|].
        split; [right; left; eauto|].
        split; [by constructor|by rewrite <-app_assoc in Htop].
    + intros (path & -> & [[-> <-]|[(inside & rest & -> & -> & Hin)|Hin]] & Hp & Ht).
      * left. apply Forall_cons in Hp as [He _].
        rewrite !bool_decide_eq_false_2 by done. cbn [orb].
        by apply list_elem_of_singleton.
      * left. apply Forall_cons in Hp as [He Hrest].
        rewrite hd_app_cons in Ht.
        rewrite !bool_decide_eq_false_2 by done. cbn [orb]. apply Hnode.
        exists rest. rewrite <-app_assoc. split; [done|].
        split; [done|]. split; [done|]. by rewrite hd_app_cons.
      * right. exists path. eauto.
Qed.

(** X23: [walk] returns exactly the regular files of the tree no name of
    whose path is ignored, and whose first name does not start with an
    ignored name followed by a slash or backslash. *)
Theorem walk_spec sep entries full :
  sep = "/"%char ∨ sep = "\"%char →
  full ∈ Upload.walk sep [] (Upload.Directory entries) ↔
  Upload.in_tree entries full Upload.File
  ∧ Forall (fun name => name ∉ Upload.IGNORE) full
  ∧ Upload.first_piece (hd "" full) ∉ Upload.IGNORE.
Proof.
  intros Hsep. rewrite (walk_kept sep Hsep (Upload.Directory entries) [] full).
  unfold kept. split.
  - by intros (path & -> & H).
  - intros H. by exists full.
Qed.

Lemma walk_spec_witness :
  ["maps"; "world"; "textures.json.gz"]
    ∈ Upload.walk "/" [] (Upload.Directory example_webroot)
  ∧ ["index.html"] ∈ Upload.walk "/" [] (Upload.Directory example_webroot).
Proof.
  split; apply (walk_spec "/" example_webroot _ (or_introl eq_refl)).
  - split.
    + eapply Upload.in_tree_below; [unfold example_webroot; solve [repeat constructor]|].
      eapply Upload.in_tree_below; [solve [repeat constructor]|].
      apply Upload.in_tree_here. solve [repeat constructor].
    + split; [|by apply (bool_decide_unpack _)].
      repeat constructor; by apply (bool_decide_unpack _).
  - split; [apply Upload.in_tree_here; unfold example_webroot; solve [repeat constructor]|].
    split; [|by apply (bool_decide_unpack _)].
    repeat constructor; by apply (bool_decide_unpack _).
Defined.
